(** * qr-book: the QR code page generator (main.py)

    A shallow embedding of [main.py]: the layout table, the page geometry
    computed inside [generate_pdf], identifier generation, the timestamped
    file name, argument validation and the top-level driver, followed by the
    properties of the specification proved about them. *)

From Stdlib Require Import ZArith NArith List String Ascii Bool Lia.
From Stdlib Require Import Strings.Byte.
From Equations Require Import Equations.
Import ListNotations.

Local Open Scope string_scope.
Local Open Scope Z_scope.

(** ** Text formatting

    Python renders integers positionally: [str(n)] and [{n}] inside an
    f-string in base ten, the [x] conversion in base sixteen with lowercase
    letters.  Both produce the shortest digit string, most significant digit
    first, by repeated division. *)

Module Text.

Definition digit_char (d : N) : ascii :=
  match d with
  | 0%N => "0" | 1%N => "1" | 2%N => "2" | 3%N => "3"
  | 4%N => "4" | 5%N => "5" | 6%N => "6" | 7%N => "7"
  | 8%N => "8" | 9%N => "9" | 10%N => "a" | 11%N => "b"
  | 12%N => "c" | 13%N => "d" | 14%N => "e" | _ => "f"
  end%char.

Definition inspect {A : Type} (a : A) : {b : A | a = b} := exist _ a eq_refl.

(** [digits b n acc] puts the digits of [n] in base [b + 2] in front of
    [acc]: the last digit is [n mod base], the digits before it are those
    of [n / base].  Writing the base as [b + 2] keeps it at least two. *)
Equations digits (b : N) (n : N) (acc : string) : string
  by wf (N.to_nat (N.log2 n)) lt :=
  digits b n acc with inspect (N.ltb n (b + 2)) => {
    | exist _ true _ := String (digit_char n) acc;
    | exist _ false H :=
        digits b (n / (b + 2)) (String (digit_char (n mod (b + 2))) acc) }.
Next Obligation.
  apply N.ltb_ge in H.
  assert (Hq : (n / (b + 2) <= n / 2)%N) by (apply N.div_le_compat_l; lia).
  assert (Hl : (N.log2 (n / 2) < N.log2 n)%N).
  { rewrite <- N.div2_div, N.div2_spec, N.log2_shiftr.
    pose proof (N.log2_pos n). lia. }
  pose proof (N.log2_le_mono _ _ Hq). lia.
Qed.

Definition decimal (n : N) : string := digits 8 n "".
Definition hexadecimal (n : N) : string := digits 14 n "".

(** [str(z)] and [f"{z}"] for an [int]. *)
Definition str (z : Z) : string :=
  if z <? 0 then String "-" (decimal (Z.to_N (- z))) else decimal (Z.to_N z).

Fixpoint replicate (n : nat) (c : ascii) : string :=
  match n with
  | O => EmptyString
  | S k => String c (replicate k c)
  end.

(** Zero padding on the left up to [width] characters; longer strings are
    left as they are. *)
Definition zero_pad (width : nat) (s : string) : string :=
  replicate (width - String.length s) "0" ++ s.

(** ['%0<width>x' % z] and ['%0<width>d' % z]: the sign comes first and
    counts towards the width. *)
Definition format_0x (width : nat) (z : Z) : string :=
  if z <? 0 then String "-" (zero_pad (width - 1) (hexadecimal (Z.to_N (- z))))
  else zero_pad width (hexadecimal (Z.to_N z)).

Definition format_0d (width : nat) (z : Z) : string :=
  if z <? 0 then String "-" (zero_pad (width - 1) (decimal (Z.to_N (- z))))
  else zero_pad width (decimal (Z.to_N z)).

End Text.

(** ** Exceptions

    The exceptions that can travel through the program: [SystemExit] from
    [sys.exit] and from the argument parser, [ValueError] from the [UUID]
    constructor.  [SystemExit] is not an [Exception] in Python, so the
    handler of [main] lets it through. *)

Inductive exn : Type :=
| SystemExit (code : Z)
| ValueError (msg : string).

Definition is_Exception (e : exn) : bool :=
  match e with
  | SystemExit _ => false
  | ValueError _ => true
  end.

Definition exn_message (e : exn) : string :=
  match e with
  | SystemExit code => Text.str code
  | ValueError msg => msg
  end.

(** ** The layout table *)

Record LayoutConfig : Type := {
  page_width : Z;
  page_height : Z;
  margin_top : Z;
  margin_bottom : Z;
  margin_left : Z;
  margin_right : Z;
  qr_size : Z;
  box_width : Z;
  box_height : Z;
  qr_padding : Z;
  row_spacing : Z;
  codes_per_page : Z
}.

Definition LAYOUT : LayoutConfig := {|
  page_width := 612;
  page_height := 792;
  margin_top := 36;
  margin_bottom := 36;
  margin_left := 72;
  margin_right := 36;
  qr_size := 60;
  box_width := 504;
  box_height := 72;
  qr_padding := 6;
  row_spacing := 72;
  codes_per_page := 10
|}.

Definition OUTPUT_DIR : string := "output".

(** ** uuid (Python standard library)

    [uuid4()] is [UUID(bytes=os.urandom(16), version=4)].  The constructor
    reads the sixteen bytes as a big-endian integer, then forces the
    variant bits to RFC 4122 and the version nibble to [version]; the
    [hex] property is ['%032x' % self.int]. *)

Module Uuid.

Record UUID : Type := { int : Z }.

Definition int_from_bytes (bs : list byte) : Z :=
  fold_left (fun acc b => acc * 256 + Z.of_N (Byte.to_N b)) bs 0.

Definition UUID_of_bytes (bytes : list byte) (version : Z) : exn + UUID :=
  if negb (Nat.eqb (List.length bytes) 16) then
    inl (ValueError "bytes is not a 16-char string")
  else
    let i := int_from_bytes bytes in
    if negb ((1 <=? version) && (version <=? 5)) then
      inl (ValueError "illegal version number")
    else
      (* Set the variant to RFC 4122. *)
      let i := Z.land i (Z.lnot (Z.shiftl 0xc000 48)) in
      let i := Z.lor i (Z.shiftl 0x8000 48) in
      (* Set the version number. *)
      let i := Z.land i (Z.lnot (Z.shiftl 0xf000 64)) in
      let i := Z.lor i (Z.shiftl version 76) in
      inr {| int := i |}.

Definition hex (u : UUID) : string := Text.format_0x 32 (int u).

(** The version nibble, [(self.int >> 76) & 0xf], and the two variant bits
    at the top of [clock_seq_hi_variant], which are [10] for RFC 4122. *)
Definition version_bits (u : UUID) : Z := Z.land (Z.shiftr (int u) 76) 0xf.
Definition variant_bits (u : UUID) : Z := Z.land (Z.shiftr (int u) 62) 3.

End Uuid.

(** ** pathlib (Python standard library)

    [Path(s)] splits [s] at the slashes and drops empty and ["."]
    components; [name] is the last component that remains.  [suffix] is the
    part of the name from its last dot on, when that dot is neither the
    first nor the last character of the name; [stem] is the rest. *)

Module Pathlib.

Fixpoint split_slash (s : string) : list string :=
  match s with
  | EmptyString => [EmptyString]
  | String c r =>
      if Ascii.eqb c "/" then EmptyString :: split_slash r
      else match split_slash r with
           | [] => [String c EmptyString]
           | p :: ps => String c p :: ps
           end
  end.

Definition kept (part : string) : bool :=
  negb (String.eqb part "" || String.eqb part ".").

Definition parts (s : string) : list string := filter kept (split_slash s).

Definition name (s : string) : string := last (parts s) "".

(** [s.rfind(".")]: the position of the last dot, if there is one. *)
Fixpoint rfind_dot (s : string) : option nat :=
  match s with
  | EmptyString => None
  | String c r =>
      match rfind_dot r with
      | Some i => Some (S i)
      | None => if Ascii.eqb c "." then Some O else None
      end
  end.

Definition split_suffix (nm : string) : string * string :=
  match rfind_dot nm with
  | Some i =>
      if (0 <? i)%nat && (i <? String.length nm - 1)%nat
      then (substring 0 i nm, substring i (String.length nm - i) nm)
      else (nm, "")
  | None => (nm, "")
  end.

Definition stem (s : string) : string := fst (split_suffix (name s)).
Definition suffix (s : string) : string := snd (split_suffix (name s)).

(** [str(Path(dir) / file)] for a relative [file] and a plain directory
    name. *)
Definition joinpath (dir file : string) : string := (dir ++ "/" ++ file)%string.

End Pathlib.

(** ** datetime (Python standard library) *)

Module Datetime.

Record datetime : Type := {
  year : Z; month : Z; day : Z;
  hour : Z; minute : Z; second : Z
}.

(** The ranges every [datetime] object satisfies. *)
Definition valid (t : datetime) : Prop :=
  1 <= year t <= 9999 /\ 1 <= month t <= 12 /\ 1 <= day t <= 31 /\
  0 <= hour t <= 23 /\ 0 <= minute t <= 59 /\ 0 <= second t <= 59.

(** [t.strftime("%Y%m%d-%H%M%S")]: the year with century as four digits,
    then month, day, hour, minute and second as two digits each, zero
    padded. *)
Definition strftime_Ymd_HMS (t : datetime) : string :=
  (Text.format_0d 4 (year t) ++ Text.format_0d 2 (month t)
   ++ Text.format_0d 2 (day t) ++ "-"
   ++ Text.format_0d 2 (hour t) ++ Text.format_0d 2 (minute t)
   ++ Text.format_0d 2 (second t))%string.

End Datetime.

(** ** QR images

    What [create_qr_code] fixes about the image it returns: the encoder
    settings, the payload, the colour mode and the pixel size after the
    resize.  The module matrix itself is the encoder's business. *)

Inductive error_correction : Type :=
  ERROR_CORRECT_L | ERROR_CORRECT_M | ERROR_CORRECT_Q | ERROR_CORRECT_H.

Record Image : Type := {
  qr_version : Z;
  qr_fit : bool;
  qr_error_correction : error_correction;
  qr_box_size : Z;
  qr_border : Z;
  qr_data : string;
  mode : string;
  size : Z * Z
}.

Definition create_qr_code (data : string) (size : Z) : Image :=
  let high_res_size := size * 4 in
  {| qr_version := 1;
     qr_fit := true;
     qr_error_correction := ERROR_CORRECT_M;
     qr_box_size := 10;
     qr_border := 0;
     qr_data := data;
     mode := "RGB";
     size := (high_res_size, high_res_size) |}.

(** ** Font metrics

    [stringWidth] of the PDF writer returns a floating point number, and
    subtracting it from an integer is a floating point subtraction.  The
    number type and the two operations are parameters of the model. *)

Class Metrics : Type := {
  num : Type;
  num_of_int : Z -> num;
  num_sub : num -> num -> num;
  stringWidth : string -> string -> Z -> num
}.

(** The free instance: a width is the request that asks for it. *)
Inductive sym_num : Type :=
| SInt (z : Z)
| SSub (a b : sym_num)
| SWidth (text font : string) (size : Z).

Definition sym_metrics : Metrics := {|
  num := sym_num;
  num_of_int := SInt;
  num_sub := SSub;
  stringWidth := SWidth
|}.

(** ** Page geometry

    The three computations [generate_pdf] performs for a page and for each
    of its rows, over an arbitrary layout table. *)

Record BoxRect : Type := {
  rect_x : Z;
  rect_y : Z;
  rect_width : Z;
  rect_height : Z
}.

Section Geometry.

Variable cfg : LayoutConfig.

(** The margins of a page: flipped on even pages in double-sided mode. *)
Definition page_margins (double_sided : bool) (actual_page_num : Z) : Z * Z :=
  if double_sided && (actual_page_num mod 2 =? 0)
  then (margin_right cfg, margin_left cfg)
  else (margin_left cfg, margin_right cfg).

(** The handwriting box of a row, given the margins of its page. *)
Definition row_box (margin_left margin_right : Z) (row : Z) : BoxRect :=
  let box_width := page_width cfg - margin_left - margin_right in
  let y_box :=
    page_height cfg - margin_top cfg - (row * row_spacing cfg) - box_height cfg in
  let x_box := margin_left in
  {| rect_x := x_box; rect_y := y_box;
     rect_width := box_width; rect_height := box_height cfg |}.

(** Where the code image of a row goes inside its box. *)
Definition qr_position (row : Z) (box : BoxRect) : Z * Z :=
  let x_qr :=
    if row mod 2 =? 0
    then rect_x box + qr_padding cfg
    else rect_x box + rect_width box - qr_size cfg - qr_padding cfg in
  let y_qr := rect_y box + qr_padding cfg in
  (x_qr, y_qr).

End Geometry.

(** [range(n)] *)
Definition range (n : Z) : list Z := map Z.of_nat (seq 0 (Z.to_nat n)).

(** [get_timestamped_filename] at a given reading of the clock. *)
Definition timestamped_filename (base_filename : string)
    (now : Datetime.datetime) : string :=
  let timestamp := Datetime.strftime_Ymd_HMS now in
  (Pathlib.stem base_filename ++ "-" ++ timestamp
   ++ Pathlib.suffix base_filename)%string.

(** The parsed command line. *)
Record Namespace : Type := {
  num_pages : Z;
  output : string;
  start_page : Z;
  double_sided : bool
}.

(** A call returns a value or raises. *)
Inductive outcome (A : Type) : Type :=
| Ret (a : A)
| Raise (e : exn).
Arguments Ret {A} a.
Arguments Raise {A} e.

(** ** The world the program runs in *)

Section Program.

Context {metrics : Metrics}.

Inductive pagesize : Type := letter.

(** The calls the canvas receives. *)
Inductive instr : Type :=
| NewCanvas (filename : string) (size : pagesize)
| Rect (x y width height : Z) (stroke fill : Z)
| DrawInlineImage (image : Image) (x y : Z) (width height : Z)
    (preserveAspectRatio : bool)
| SetFont (psfontname : string) (size : Z)
| DrawString (x : num) (y : Z) (text : string)
| ShowPage
| Save.

Record World : Type := {
  pdf : list instr;           (* calls made on the canvas, oldest first *)
  stdout : list string;       (* lines printed, oldest first *)
  stderr : list string;
  dirs : list string;         (* directories created *)
  clock : Datetime.datetime;  (* what datetime.now() reads *)
  entropy : nat -> byte;      (* the bytes os.urandom hands out *)
  cursor : nat                (* how many of them were taken *)
}.

Definition M (A : Type) : Type := World -> outcome A * World.

Definition ret {A : Type} (a : A) : M A := fun w => (Ret a, w).

Definition bind {A B : Type} (m : M A) (k : A -> M B) : M B :=
  fun w =>
    match m w with
    | (Ret a, w') => k a w'
    | (Raise e, w') => (Raise e, w')
    end.

Definition raise {A : Type} (e : exn) : M A := fun w => (Raise e, w).

(** [try: body except Exception as e: handler e] *)
Definition try_except {A : Type} (body : M A) (handler : exn -> M A) : M A :=
  fun w =>
    match body w with
    | (Ret a, w') => (Ret a, w')
    | (Raise e, w') =>
        if is_Exception e then handler e w' else (Raise e, w')
    end.

Notation "x <- m ;; k" := (bind m (fun x => k))
  (at level 61, m at next level, right associativity).
Notation "m ;; k" := (bind m (fun _ => k))
  (at level 61, right associativity).

Fixpoint for_ {A : Type} (l : list A) (body : A -> M unit) : M unit :=
  match l with
  | [] => ret tt
  | x :: rest => body x ;; for_ rest body
  end.

Definition when (b : bool) (m : M unit) : M unit := if b then m else ret tt.

Definition emit (i : instr) : M unit := fun w =>
  (Ret tt,
   {| pdf := pdf w ++ [i]; stdout := stdout w; stderr := stderr w;
      dirs := dirs w; clock := clock w; entropy := entropy w;
      cursor := cursor w |}).

Definition print (line : string) : M unit := fun w =>
  (Ret tt,
   {| pdf := pdf w; stdout := stdout w ++ [line]; stderr := stderr w;
      dirs := dirs w; clock := clock w; entropy := entropy w;
      cursor := cursor w |}).

Definition eprint (line : string) : M unit := fun w =>
  (Ret tt,
   {| pdf := pdf w; stdout := stdout w; stderr := stderr w ++ [line];
      dirs := dirs w; clock := clock w; entropy := entropy w;
      cursor := cursor w |}).

(** [Path(d).mkdir(exist_ok=True)] *)
Definition mkdir_exist_ok (d : string) : M unit := fun w =>
  (Ret tt,
   {| pdf := pdf w; stdout := stdout w; stderr := stderr w;
      dirs := if existsb (String.eqb d) (dirs w) then dirs w else dirs w ++ [d];
      clock := clock w; entropy := entropy w; cursor := cursor w |}).

Definition datetime_now : M Datetime.datetime := fun w => (Ret (clock w), w).

(** [os.urandom(n)] *)
Definition urandom (n : nat) : M (list byte) := fun w =>
  (Ret (map (entropy w) (seq (cursor w) n)),
   {| pdf := pdf w; stdout := stdout w; stderr := stderr w;
      dirs := dirs w; clock := clock w; entropy := entropy w;
      cursor := (cursor w + n)%nat |}).

Definition sys_exit {A : Type} (code : Z) : M A := raise (SystemExit code).

(** ** The program *)

Definition uuid4 : M Uuid.UUID :=
  bytes <- urandom 16 ;;
  match Uuid.UUID_of_bytes bytes 4 with
  | inl e => raise e
  | inr u => ret u
  end.

Definition generate_uuid4_without_dashes : M string :=
  u <- uuid4 ;; ret (Uuid.hex u).

Definition get_timestamped_filename (base_filename : string) : M string :=
  now <- datetime_now ;;
  ret (timestamped_filename base_filename now).

(** One row of a page: a fresh identifier, its code image, the box and the
    image inside it. *)
Definition draw_row (cfg : LayoutConfig) (margin_left margin_right : Z)
    (row : Z) : M unit :=
  uuid_str <- generate_uuid4_without_dashes ;;
  let qr_img := create_qr_code uuid_str (qr_size cfg) in
  let box := row_box cfg margin_left margin_right row in
  emit (Rect (rect_x box) (rect_y box) (rect_width box) (rect_height box) 1 0) ;;
  let '(x_qr, y_qr) := qr_position cfg row box in
  emit (DrawInlineImage qr_img x_qr y_qr (qr_size cfg) (qr_size cfg) true).

(** The body of the page loop. *)
Definition draw_page (cfg : LayoutConfig) (num_pages start_page : Z)
    (double_sided : bool) (page_num : Z) : M unit :=
  let width := page_width cfg in
  when (1 <? num_pages)
    (print ("  Page " ++ Text.str (page_num + 1) ++ "/"
            ++ Text.str num_pages ++ "...")%string) ;;
  let actual_page_num := start_page + page_num in
  let '(margin_left, margin_right) :=
    page_margins cfg double_sided actual_page_num in
  for_ (range (codes_per_page cfg)) (draw_row cfg margin_left margin_right) ;;
  emit (SetFont "Helvetica" 10) ;;
  let page_text := ("Page " ++ Text.str actual_page_num)%string in
  let text_width := stringWidth page_text "Helvetica" 10 in
  emit (DrawString (num_sub (num_of_int (width - margin_right)) text_width)
          (margin_bottom cfg - 20) page_text) ;;
  emit ShowPage.

Definition generate_pdf_with (cfg : LayoutConfig) (num_pages : Z)
    (output_filename : string) (start_page : Z) (double_sided : bool)
    : M unit :=
  emit (NewCanvas output_filename letter) ;;
  let total_codes := num_pages * codes_per_page cfg in
  print ("Generating " ++ Text.str num_pages ++ " page(s) with "
         ++ Text.str total_codes ++ " QR codes...")%string ;;
  print ("Page numbering starts at: " ++ Text.str start_page)%string ;;
  when double_sided
    (print "Double-sided mode: margins will flip on even pages") ;;
  for_ (range num_pages) (draw_page cfg num_pages start_page double_sided) ;;
  emit Save ;;
  print ("Successfully generated " ++ output_filename)%string ;;
  print ("Total: " ++ Text.str num_pages ++ " page(s), "
         ++ Text.str total_codes ++ " QR codes")%string.

Definition generate_pdf : Z -> string -> Z -> bool -> M unit :=
  generate_pdf_with LAYOUT.

(** [parser.error(message)]: the message goes to the error stream and the
    process exits with status 2. *)
Definition parser_error {A : Type} (message : string) : M A :=
  eprint ("error: " ++ message)%string ;; sys_exit 2.

(** The checks [parse_arguments] makes on what the parser returned. *)
Definition parse_arguments (args : Namespace) : M Namespace :=
  when (num_pages args <? 1)
    (parser_error "Number of pages must be at least 1") ;;
  when (100 <? num_pages args)
    (print ("Warning: Generating " ++ Text.str (num_pages args)
            ++ " pages. This may take a while...")%string) ;;
  when (start_page args <? 1)
    (parser_error "Starting page number must be at least 1") ;;
  ret args.

Definition main (parsed : Namespace) : M unit :=
  args <- parse_arguments parsed ;;
  mkdir_exist_ok OUTPUT_DIR ;;
  timestamped_name <- get_timestamped_filename (output args) ;;
  let output_filename := Pathlib.joinpath OUTPUT_DIR timestamped_name in
  try_except
    (generate_pdf (num_pages args) output_filename (start_page args)
       (double_sided args))
    (fun e =>
       eprint ("Error generating PDF: " ++ exn_message e)%string ;;
       eprint "Traceback (most recent call last):" ;;
       sys_exit 1).

(** ** Reading a trace of canvas calls *)

Definition is_ShowPage (i : instr) : bool :=
  match i with ShowPage => true | _ => false end.

Definition is_Save (i : instr) : bool :=
  match i with Save => true | _ => false end.

Definition is_Rect (i : instr) : bool :=
  match i with Rect _ _ _ _ _ _ => true | _ => false end.

Definition is_DrawInlineImage (i : instr) : bool :=
  match i with DrawInlineImage _ _ _ _ _ _ => true | _ => false end.

Definition is_DrawString (i : instr) : bool :=
  match i with DrawString _ _ _ => true | _ => false end.

Definition count (p : instr -> bool) (l : list instr) : nat :=
  List.length (filter p l).

(** The pages of a trace: the calls up to each [ShowPage], in order.  The
    second component is what follows the last [ShowPage]. *)
Fixpoint split_pages (l : list instr) : list (list instr) * list instr :=
  match l with
  | [] => ([], [])
  | ShowPage :: rest =>
      let '(pages, tail) := split_pages rest in ([] :: pages, tail)
  | i :: rest =>
      match split_pages rest with
      | ([], tail) => ([], i :: tail)
      | (p :: pages, tail) => ((i :: p) :: pages, tail)
      end
  end.

Definition label_of (page : list instr) : list string :=
  flat_map (fun i => match i with DrawString _ _ t => [t] | _ => [] end) page.

(** A box with the image drawn right after it. *)
Fixpoint rows_of (page : list instr) : list (BoxRect * (Z * Z * Z * Z)) :=
  match page with
  | Rect x y w h _ _ :: ((DrawInlineImage _ xq yq wq hq _ :: _) as rest) =>
      ({| rect_x := x; rect_y := y; rect_width := w; rect_height := h |},
       (xq, yq, wq, hq)) :: rows_of rest
  | _ :: rest => rows_of rest
  | [] => []
  end.

(** The image rectangle lies inside the box. *)
Definition inside (row : BoxRect * (Z * Z * Z * Z)) : Prop :=
  let '(box, (xq, yq, wq, hq)) := row in
  rect_x box <= xq /\ xq + wq <= rect_x box + rect_width box /\
  rect_y box <= yq /\ yq + hq <= rect_y box + rect_height box.

Definition initial_world (now : Datetime.datetime) (rng : nat -> byte) : World :=
  {| pdf := []; stdout := []; stderr := []; dirs := [];
     clock := now; entropy := rng; cursor := O |}.

End Program.

(** ** Character classes used in the statements *)

Fixpoint string_forallb (p : ascii -> bool) (s : string) : bool :=
  match s with
  | EmptyString => true
  | String c r => p c && string_forallb p r
  end.

Definition char_in (alphabet : string) (c : ascii) : bool :=
  existsb (Ascii.eqb c) (list_ascii_of_string alphabet).

Definition is_hex_char : ascii -> bool := char_in "0123456789abcdef".
Definition is_digit : ascii -> bool := char_in "0123456789".
Definition is_not (c : ascii) : ascii -> bool := fun d => negb (Ascii.eqb d c).

(** Reading a digit string back: the number it denotes in a base. *)
Definition digit_value (c : ascii) : N :=
  match c with
  | "0" => 0 | "1" => 1 | "2" => 2 | "3" => 3 | "4" => 4
  | "5" => 5 | "6" => 6 | "7" => 7 | "8" => 8 | "9" => 9
  | "a" => 10 | "b" => 11 | "c" => 12 | "d" => 13 | "e" => 14 | "f" => 15
  | _ => 0
  end%char%N.

Fixpoint value_from (base : N) (acc : N) (s : string) : N :=
  match s with
  | EmptyString => acc
  | String c r => value_from base (acc * base + digit_value c)%N r
  end.

Definition string_value (base : N) (s : string) : N := value_from base 0 s.

(** [fits n x]: [x] is a natural number of at most [n] bits. *)
Definition fits (n : Z) (x : Z) : Prop :=
  0 <= x /\ forall k, n <= k -> Z.testbit x k = false.

(** ** What a run leaves behind

    [runs m w a tr out d]: started in [w], the computation [m] returns [a]
    without raising, after making the canvas calls [tr], printing the lines
    [out] and taking [d] bytes of entropy, and touching nothing else. *)

Section Runs.

Context {metrics : Metrics}.

Local Open Scope list_scope.

Definition extends (w w' : World) (tr : list instr) (out : list string)
    (d : nat) : Prop :=
  pdf w' = pdf w ++ tr /\ stdout w' = stdout w ++ out /\
  stderr w' = stderr w /\ dirs w' = dirs w /\ clock w' = clock w /\
  entropy w' = entropy w /\ cursor w' = (cursor w + d)%nat.

Definition runs {A : Type} (m : M A) (w : World) (a : A)
    (tr : list instr) (out : list string) (d : nat) : Prop :=
  exists w', m w = (Ret a, w') /\ extends w w' tr out d.

(** The calls of a loop whose body takes [d] bytes of entropy per turn and
    makes the calls [f c x] when it starts at cursor [c]. *)
Fixpoint trace_fold {A : Type} (f : nat -> A -> list instr) (d : nat)
    (c : nat) (l : list A) : list instr :=
  match l with
  | [] => []
  | x :: rest => f c x ++ trace_fold f d (c + d)%nat rest
  end.

(** The identifier made from the sixteen bytes at cursor [c]. *)
Definition uuid_hex_at (rng : nat -> byte) (c : nat) : string :=
  match Uuid.UUID_of_bytes (map rng (seq c 16)) 4 with
  | inr u => Uuid.hex u
  | inl _ => ""
  end.

Definition row_instrs (cfg : LayoutConfig) (margin_left margin_right : Z)
    (rng : nat -> byte) (c : nat) (row : Z) : list instr :=
  let box := row_box cfg margin_left margin_right row in
  [Rect (rect_x box) (rect_y box) (rect_width box) (rect_height box) 1 0;
   DrawInlineImage (create_qr_code (uuid_hex_at rng c) (qr_size cfg))
     (fst (qr_position cfg row box)) (snd (qr_position cfg row box))
     (qr_size cfg) (qr_size cfg) true].

Definition page_label (start_page page_num : Z) : string :=
  ("Page " ++ Text.str (start_page + page_num))%string.

Definition label_instrs (cfg : LayoutConfig) (margin_right : Z)
    (label : string) : list instr :=
  [SetFont "Helvetica" 10;
   DrawString
     (num_sub (num_of_int (page_width cfg - margin_right))
        (stringWidth label "Helvetica" 10))
     (margin_bottom cfg - 20) label;
   ShowPage].

Definition page_rows (cfg : LayoutConfig) (start_page : Z)
    (double_sided : bool) (rng : nat -> byte) (c : nat) (page_num : Z)
    : list instr :=
  let m := page_margins cfg double_sided (start_page + page_num) in
  trace_fold (row_instrs cfg (fst m) (snd m) rng) 16 c
    (range (codes_per_page cfg)).

Definition page_instrs (cfg : LayoutConfig) (start_page : Z)
    (double_sided : bool) (rng : nat -> byte) (c : nat) (page_num : Z)
    : list instr :=
  let m := page_margins cfg double_sided (start_page + page_num) in
  page_rows cfg start_page double_sided rng c page_num
  ++ label_instrs cfg (snd m) (page_label start_page page_num).

Definition page_entropy (cfg : LayoutConfig) : nat :=
  (16 * List.length (range (codes_per_page cfg)))%nat.

Definition page_lines (num_pages page_num : Z) : list string :=
  if 1 <? num_pages
  then [("  Page " ++ Text.str (page_num + 1) ++ "/"
         ++ Text.str num_pages ++ "...")%string]
  else [].

Definition document_instrs (cfg : LayoutConfig) (num_pages : Z)
    (output_filename : string) (start_page : Z) (double_sided : bool)
    (rng : nat -> byte) (c : nat) : list instr :=
  NewCanvas output_filename letter
  :: trace_fold (page_instrs cfg start_page double_sided rng)
       (page_entropy cfg) c (range num_pages)
  ++ [Save].

Definition document_lines (cfg : LayoutConfig) (num_pages : Z)
    (output_filename : string) (start_page : Z) (double_sided : bool)
    : list string :=
  let total_codes := num_pages * codes_per_page cfg in
  [("Generating " ++ Text.str num_pages ++ " page(s) with "
    ++ Text.str total_codes ++ " QR codes...")%string;
   ("Page numbering starts at: " ++ Text.str start_page)%string]
  ++ (if double_sided
      then ["Double-sided mode: margins will flip on even pages"] else [])
  ++ flat_map (page_lines num_pages) (range num_pages)
  ++ [("Successfully generated " ++ output_filename)%string;
      ("Total: " ++ Text.str num_pages ++ " page(s), "
       ++ Text.str total_codes ++ " QR codes")%string].

(** The geometry of a row: its box and the rectangle of its image. *)
Definition row_geometry (cfg : LayoutConfig) (margin_left margin_right : Z)
    (row : Z) : BoxRect * (Z * Z * Z * Z) :=
  let box := row_box cfg margin_left margin_right row in
  (box, (fst (qr_position cfg row box), snd (qr_position cfg row box),
         qr_size cfg, qr_size cfg)).

Definition page_geometry (cfg : LayoutConfig) (start_page : Z)
    (double_sided : bool) (page_num : Z) : list (BoxRect * (Z * Z * Z * Z)) :=
  let m := page_margins cfg double_sided (start_page + page_num) in
  map (row_geometry cfg (fst m) (snd m)) (range (codes_per_page cfg)).

(** A page without the [ShowPage] that ends it. *)
Definition page_body (cfg : LayoutConfig) (start_page : Z)
    (double_sided : bool) (rng : nat -> byte) (c : nat) (page_num : Z)
    : list instr :=
  removelast (page_instrs cfg start_page double_sided rng c page_num).

(** The turns of a loop, one list of calls per turn. *)
Fixpoint pages_fold {A : Type} (f : nat -> A -> list instr) (d : nat)
    (c : nat) (l : list A) : list (list instr) :=
  match l with
  | [] => []
  | x :: rest => f c x :: pages_fold f d (c + d)%nat rest
  end.

Definition no_ShowPage (l : list instr) : Prop :=
  Forall (fun i => is_ShowPage i = false) l.

Definition rect_has_width (width : Z) (i : instr) : Prop :=
  match i with
  | Rect _ _ w _ _ _ => w = width
  | _ => True
  end.

(** What holds of the page with index [page_num] of a document. *)
Definition page_ok (cfg : LayoutConfig) (start_page : Z) (double_sided : bool)
    (page : list instr) (page_num : Z) : Prop :=
  rows_of page = page_geometry cfg start_page double_sided page_num /\
  label_of page = [page_label start_page page_num] /\
  count is_Rect page = Z.to_nat (codes_per_page cfg) /\
  count is_DrawInlineImage page = Z.to_nat (codes_per_page cfg) /\
  count is_Save page = 0%nat /\
  Forall (rect_has_width (page_width cfg - margin_left cfg - margin_right cfg))
    page.

End Runs.

(** The line [parse_arguments] prints for more than 100 pages. *)
Definition warning_line (n : Z) : string :=
  ("Warning: Generating " ++ Text.str n
   ++ " pages. This may take a while...")%string.

(** ** More readers of a trace *)

Section Readers.

Context {metrics : Metrics}.

(** The payloads of the code images drawn, in drawing order. *)
Definition codes_of (l : list instr) : list string :=
  flat_map (fun i => match i with
                     | DrawInlineImage img _ _ _ _ _ => [qr_data img]
                     | _ => []
                     end) l.

(** The identifiers made from [m] consecutive sixteen-byte windows of the
    entropy source, the first one at cursor [c]. *)
Definition identifiers_from (rng : nat -> byte) (c : nat) (m : nat)
    : list string :=
  map (fun k => uuid_hex_at rng (c + 16 * k)%nat) (seq 0 m).

(** How [generate_pdf] draws a code image: at the nominal size, from a
    square RGB image four times that size, which encodes a 32-character
    lowercase hexadecimal payload at error correction level M. *)
Definition image_call_ok (cfg : LayoutConfig) (i : instr) : Prop :=
  match i with
  | DrawInlineImage img _ _ width height keep =>
      width = qr_size cfg /\ height = qr_size cfg /\ keep = true /\
      size img = (4 * width, 4 * height) /\
      mode img = "RGB" /\
      qr_error_correction img = ERROR_CORRECT_M /\
      String.length (qr_data img) = 32%nat /\
      string_forallb is_hex_char (qr_data img) = true
  | _ => True
  end.


(** A box whose right edge is at [edge]. *)
Definition rect_ends_at (edge : Z) (i : instr) : Prop :=
  match i with
  | Rect x _ width _ _ _ => x + width = edge
  | _ => True
  end.

End Readers.

(** ** Sample inputs

    A clock reading (the one in the docstring of
    [get_timestamped_filename]), an entropy source and the symbolic metrics,
    to run the program on. *)

Definition sample_clock : Datetime.datetime :=
  {| Datetime.year := 2025; Datetime.month := 1; Datetime.day := 9;
     Datetime.hour := 14; Datetime.minute := 30; Datetime.second := 22 |}.

Definition sample_entropy (n : nat) : byte :=
  match Byte.of_N (N.of_nat n mod 256) with
  | Some b => b
  | None => x00
  end.

Definition sample_world : @World sym_metrics :=
  initial_world sample_clock sample_entropy.

(** * Properties *)

(** ** Digit strings *)

Lemma digits_unfold (b n : N) (acc : string) :
  Text.digits b n acc =
  if (n <? b + 2)%N then String (Text.digit_char n) acc
  else Text.digits b (n / (b + 2))
         (String (Text.digit_char (n mod (b + 2))) acc).
Proof.
  rewrite Text.digits_equation_1.
  destruct (Text.inspect (n <? b + 2)%N) as [[|] e]; simpl; rewrite e; reflexivity.
Qed.

Lemma digit_char_hex (d : N) : is_hex_char (Text.digit_char d) = true.
Proof.
  destruct d as [|p]; [reflexivity|].
  do 4 (try destruct p as [p|p|]; try reflexivity).
Qed.

Lemma digit_char_digit (d : N) : (d < 10)%N -> is_digit (Text.digit_char d) = true.
Proof.
  intros Hd. destruct d as [|p]; [reflexivity|].
  do 4 (try destruct p as [p|p|]; try reflexivity; try lia).
Qed.

Lemma string_forallb_app (p : ascii -> bool) (s t : string) :
  string_forallb p (s ++ t) = string_forallb p s && string_forallb p t.
Proof.
  induction s as [|c s IH]; simpl; [reflexivity|].
  rewrite IH, andb_assoc. reflexivity.
Qed.

Lemma string_forallb_impl (p q : ascii -> bool) (s : string) :
  (forall c, p c = true -> q c = true) ->
  string_forallb p s = true -> string_forallb q s = true.
Proof.
  intros Hpq. induction s as [|c s IH]; simpl; [reflexivity|].
  intros H. apply andb_true_iff in H as [Hc Hs].
  rewrite (Hpq _ Hc), (IH Hs). reflexivity.
Qed.

Lemma digits_forallb (p : ascii -> bool) (b : N) :
  (forall d, (d < b + 2)%N -> p (Text.digit_char d) = true) ->
  forall n acc, string_forallb p acc = true ->
  string_forallb p (Text.digits b n acc) = true.
Proof.
  intros Hp n.
  induction n as [n IH] using (well_founded_induction N.lt_wf_0).
  intros acc Hacc. rewrite digits_unfold.
  destruct (n <? b + 2)%N eqn:E.
  - apply N.ltb_lt in E. simpl. rewrite Hp, Hacc by assumption. reflexivity.
  - apply N.ltb_ge in E. apply IH.
    + apply N.div_lt; lia.
    + simpl. rewrite Hp, Hacc; [reflexivity|]. apply N.mod_lt. lia.
Qed.

Lemma digits_length_le (b : N) (k : nat) :
  forall n acc, (n < (b + 2) ^ N.of_nat (S k))%N ->
  (String.length (Text.digits b n acc) <= S k + String.length acc)%nat.
Proof.
  induction k as [|k IH]; intros n acc Hn; rewrite digits_unfold;
    destruct (n <? b + 2)%N eqn:E; simpl; try lia.
  - apply N.ltb_ge in E. change (N.of_nat 1) with 1%N in Hn.
    rewrite N.pow_1_r in Hn. lia.
  - apply N.ltb_ge in E.
    assert (Hq : (n / (b + 2) < (b + 2) ^ N.of_nat (S k))%N).
    { apply N.Div0.div_lt_upper_bound.
      rewrite <- N.pow_succ_r'. rewrite <- Nnat.Nat2N.inj_succ. exact Hn. }
    specialize (IH _ (String (Text.digit_char (n mod (b + 2))) acc) Hq).
    simpl in IH. lia.
Qed.

Lemma digits_length_ge (b : N) :
  forall n acc,
  (S (String.length acc) <= String.length (Text.digits b n acc))%nat.
Proof.
  intros n.
  induction n as [n IH] using (well_founded_induction N.lt_wf_0).
  intros acc. rewrite digits_unfold.
  destruct (n <? b + 2)%N eqn:E; simpl; [lia|].
  apply N.ltb_ge in E.
  assert (Hlt : (n / (b + 2) < n)%N) by (apply N.div_lt; lia).
  specialize (IH _ Hlt (String (Text.digit_char (n mod (b + 2))) acc)).
  simpl in IH. lia.
Qed.

Lemma replicate_length (n : nat) (c : ascii) :
  String.length (Text.replicate n c) = n.
Proof. induction n as [|n IH]; simpl; congruence. Qed.

Lemma replicate_forallb (p : ascii -> bool) (n : nat) (c : ascii) :
  p c = true -> string_forallb p (Text.replicate n c) = true.
Proof. intros Hc. induction n as [|n IH]; simpl; [reflexivity|]. rewrite Hc, IH. reflexivity. Qed.

Lemma string_length_app (s t : string) :
  String.length (s ++ t) = (String.length s + String.length t)%nat.
Proof. induction s as [|c s IH]; simpl; congruence. Qed.

Lemma string_app_assoc (s t u : string) :
  ((s ++ t) ++ u)%string = (s ++ t ++ u)%string.
Proof. induction s as [|c s IH]; simpl; congruence. Qed.

Lemma zero_pad_length (width : nat) (s : string) :
  (String.length s <= width)%nat ->
  String.length (Text.zero_pad width s) = width.
Proof.
  intros H. unfold Text.zero_pad.
  rewrite string_length_app, replicate_length. lia.
Qed.

Lemma zero_pad_forallb (p : ascii -> bool) (width : nat) (s : string) :
  p "0"%char = true -> string_forallb p s = true ->
  string_forallb p (Text.zero_pad width s) = true.
Proof.
  intros H0 Hs. unfold Text.zero_pad.
  rewrite string_forallb_app, replicate_forallb, Hs by assumption. reflexivity.
Qed.

Lemma digit_value_char (d : N) :
  (d < 16)%N -> digit_value (Text.digit_char d) = d.
Proof.
  intros Hd. destruct d as [|p]; [reflexivity|].
  do 4 (try destruct p as [p|p|]; try reflexivity; try lia).
Qed.

Lemma digits_app (b : N) :
  forall n acc, Text.digits b n acc = (Text.digits b n "" ++ acc)%string.
Proof.
  intros n. induction n as [n IH] using (well_founded_induction N.lt_wf_0).
  intros acc. rewrite (digits_unfold b n acc), (digits_unfold b n "").
  destruct (n <? b + 2)%N eqn:E; [reflexivity|].
  apply N.ltb_ge in E.
  assert (Hlt : (n / (b + 2) < n)%N) by (apply N.div_lt; lia).
  rewrite (IH _ Hlt (String _ acc)), (IH _ Hlt (String _ "")).
  rewrite string_app_assoc. reflexivity.
Qed.

Lemma value_from_app (base : N) (s t : string) :
  forall acc,
  value_from base acc (s ++ t) = value_from base (value_from base acc s) t.
Proof.
  induction s as [|c s IH]; intros acc; simpl; [reflexivity|apply IH].
Qed.

(** The digit string of [n] denotes [n]. *)
Lemma digits_value (b : N) :
  (b + 2 <= 16)%N ->
  forall n, string_value (b + 2) (Text.digits b n "") = n.
Proof.
  intros Hb n. induction n as [n IH] using (well_founded_induction N.lt_wf_0).
  rewrite digits_unfold. destruct (n <? b + 2)%N eqn:E.
  - apply N.ltb_lt in E. unfold string_value. simpl.
    apply digit_value_char. lia.
  - apply N.ltb_ge in E.
    assert (Hlt : (n / (b + 2) < n)%N) by (apply N.div_lt; lia).
    rewrite digits_app. unfold string_value in *.
    rewrite value_from_app, (IH _ Hlt).
    simpl. rewrite digit_value_char.
    + pose proof (N.div_mod n (b + 2) ltac:(lia)). lia.
    + pose proof (N.mod_lt n (b + 2) ltac:(lia)). lia.
Qed.

Lemma zero_pad_value (base : N) (width : nat) (s : string) :
  string_value base (Text.zero_pad width s) = string_value base s.
Proof.
  unfold Text.zero_pad, string_value. rewrite value_from_app. f_equal.
  induction (width - String.length s)%nat as [|k IH]; simpl; [reflexivity|].
  exact IH.
Qed.

(** [str(z)] is the decimal numeral of a natural number [z]. *)
Lemma str_value (z : Z) :
  0 <= z -> Z.of_N (string_value 10 (Text.str z)) = z.
Proof.
  intros Hz. unfold Text.str.
  destruct (z <? 0) eqn:E; [apply Z.ltb_lt in E; lia|].
  unfold Text.decimal. rewrite (digits_value 8) by lia. lia.
Qed.

(** ** Identifiers *)

Lemma fits_lt (n x : Z) : 0 <= n -> fits n x -> 0 <= x < 2 ^ n.
Proof.
  intros Hn [Hx Hbits]. split; [assumption|].
  destruct (Z.eq_dec x 0) as [->|Hx0]; [apply Z.pow_pos_nonneg; lia|].
  destruct (Z.lt_ge_cases x (2 ^ n)) as [Hlt|Hge]; [assumption|exfalso].
  assert (Hlog : n <= Z.log2 x) by (apply Z.log2_le_pow2; lia).
  pose proof (Z.bit_log2 x ltac:(lia)) as Hb.
  rewrite (Hbits _ Hlog) in Hb. discriminate.
Qed.

Lemma lt_fits (n x : Z) : 0 <= x < 2 ^ n -> fits n x.
Proof.
  intros [Hx Hlt]. split; [assumption|]. intros k Hk.
  destruct (Z.eq_dec x 0) as [->|Hx0]; [apply Z.bits_0|].
  apply Z.bits_above_log2; [assumption|].
  assert (Z.log2 x < n); [|lia].
  apply Z.log2_lt_pow2; lia.
Qed.

Lemma fits_land (n x m : Z) : fits n x -> fits n (Z.land x m).
Proof.
  intros [Hx Hbits]. split.
  - apply Z.land_nonneg. left. assumption.
  - intros k Hk. rewrite Z.land_spec, (Hbits _ Hk). reflexivity.
Qed.

Lemma fits_lor (n x c : Z) : fits n x -> fits n c -> fits n (Z.lor x c).
Proof.
  intros [Hx Hbx] [Hc Hbc]. split.
  - apply Z.lor_nonneg. split; assumption.
  - intros k Hk. rewrite Z.lor_spec, (Hbx _ Hk), (Hbc _ Hk). reflexivity.
Qed.

Lemma int_from_bytes_acc (bs : list byte) :
  forall a, 0 <= a ->
  0 <= fold_left (fun acc b => acc * 256 + Z.of_N (Byte.to_N b)) bs a
    < (a + 1) * 256 ^ Z.of_nat (List.length bs).
Proof.
  induction bs as [|b bs IH]; intros a Ha.
  - simpl. lia.
  - pose proof (Byte.to_N_bounded b) as Hb.
    cbn [fold_left List.length].
    assert (Ha' : 0 <= a * 256 + Z.of_N (Byte.to_N b)) by lia.
    specialize (IH _ Ha').
    rewrite Nat2Z.inj_succ, Z.pow_succ_r by lia.
    assert (Hp : 0 < 256 ^ Z.of_nat (List.length bs))
      by (apply Z.pow_pos_nonneg; lia).
    nia.
Qed.

Lemma int_from_bytes_range (bs : list byte) :
  0 <= Uuid.int_from_bytes bs < 256 ^ Z.of_nat (List.length bs).
Proof.
  pose proof (int_from_bytes_acc bs 0 ltac:(lia)) as H.
  unfold Uuid.int_from_bytes. lia.
Qed.

(** Sixteen bytes always make a version 4 [UUID], and its integer has 128
    bits. *)
Lemma UUID_of_bytes_16 (bs : list byte) :
  List.length bs = 16%nat ->
  exists u, Uuid.UUID_of_bytes bs 4 = inr u /\ 0 <= Uuid.int u < 2 ^ 128.
Proof.
  intros Hlen. unfold Uuid.UUID_of_bytes. rewrite Hlen.
  cbn [Nat.eqb negb Z.leb Z.compare Pos.compare Pos.compare_cont andb].
  eexists. split; [reflexivity|].
  cbn [Uuid.int]. apply fits_lt; [lia|].
  pose proof (int_from_bytes_range bs) as Hr. rewrite Hlen in Hr.
  change (256 ^ Z.of_nat 16) with (2 ^ 128) in Hr.
  apply fits_lor; [apply fits_land, fits_lor; [apply fits_land|]|].
  - apply lt_fits. exact Hr.
  - apply lt_fits. vm_compute. split; [discriminate|reflexivity].
  - apply lt_fits. vm_compute. split; [discriminate|reflexivity].
Qed.

Lemma testbit_small (c n k : Z) :
  0 <= c < 2 ^ n -> n <= k -> Z.testbit c k = false.
Proof.
  intros Hc Hk. destruct (lt_fits n c Hc) as [_ H]. apply H. exact Hk.
Qed.

(** The masks of the constructor leave the version nibble at 4 and the
    variant bits at [10]. *)
Lemma UUID_of_bytes_layout (bs : list byte) (u : Uuid.UUID) :
  Uuid.UUID_of_bytes bs 4 = inr u ->
  Uuid.version_bits u = 4 /\ Uuid.variant_bits u = 2.
Proof.
  unfold Uuid.UUID_of_bytes.
  destruct (negb (List.length bs =? 16)%nat); [discriminate|].
  cbn [Z.leb Z.compare Pos.compare Pos.compare_cont andb negb].
  intros H. injection H as <-.
  unfold Uuid.version_bits, Uuid.variant_bits. cbn [Uuid.int].
  set (i0 := Uuid.int_from_bytes bs). clearbody i0.
  split.
  - apply Z.bits_inj'. intros k Hk.
    rewrite Z.land_spec, Z.shiftr_spec by lia.
    destruct (Z.lt_ge_cases k 4) as [Hlt|Hge].
    + assert (Hcases : k = 0 \/ k = 1 \/ k = 2 \/ k = 3) by lia.
      rewrite Z.lor_spec, Z.land_spec.
      destruct Hcases as [-> | [-> | [-> | ->]]]; cbn;
        rewrite ?andb_false_r, ?andb_true_r, ?orb_false_r, ?orb_true_r;
        reflexivity.
    + rewrite (testbit_small 15 4 k), (testbit_small 4 4 k) by lia.
      apply andb_false_r.
  - apply Z.bits_inj'. intros k Hk.
    rewrite Z.land_spec, Z.shiftr_spec by lia.
    destruct (Z.lt_ge_cases k 2) as [Hlt|Hge].
    + assert (Hcases : k = 0 \/ k = 1) by lia.
      rewrite !Z.lor_spec, !Z.land_spec, !Z.lor_spec, !Z.land_spec.
      destruct Hcases as [-> | ->]; cbn;
        rewrite ?andb_false_r, ?andb_true_r, ?orb_false_r, ?orb_true_r;
        reflexivity.
    + rewrite (testbit_small 3 2 k), (testbit_small 2 2 k) by lia.
      apply andb_false_r.
Qed.

Lemma hex_value (i : Z) :
  0 <= i -> Z.of_N (string_value 16 (Text.format_0x 32 i)) = i.
Proof.
  intros Hi. unfold Text.format_0x.
  destruct (i <? 0) eqn:E; [apply Z.ltb_lt in E; lia|].
  rewrite zero_pad_value. unfold Text.hexadecimal.
  rewrite (digits_value 14) by lia. lia.
Qed.

Lemma hex_of_128_bits (i : Z) :
  0 <= i < 2 ^ 128 ->
  String.length (Text.format_0x 32 i) = 32%nat /\
  string_forallb is_hex_char (Text.format_0x 32 i) = true.
Proof.
  intros [H0 Hlt]. unfold Text.format_0x.
  destruct (i <? 0) eqn:E; [apply Z.ltb_lt in E; lia|]. split.
  - apply zero_pad_length.
    pose proof (digits_length_le 14 31 (Z.to_N i) EmptyString) as Hd.
    simpl in Hd. unfold Text.hexadecimal.
    assert (Hn : (Z.to_N i < (14 + 2) ^ N.of_nat 32)%N).
    { change ((14 + 2) ^ N.of_nat 32)%N with (Z.to_N (2 ^ 128)).
      apply Z2N.inj_lt; lia. }
    specialize (Hd Hn). lia.
  - apply zero_pad_forallb; [reflexivity|].
    apply digits_forallb; [|reflexivity].
    intros d _. apply digit_char_hex.
Qed.

Lemma hex_char_not_hyphen (c : ascii) :
  is_hex_char c = true -> is_not "-" c = true.
Proof.
  unfold is_hex_char, char_in, is_not. simpl. intros H.
  destruct (Ascii.eqb_spec c "-") as [->|]; [discriminate H|reflexivity].
Qed.

(** ** Runs of the monadic code *)

Section RunFacts.

Context {metrics : Metrics}.

Local Open Scope list_scope.

Lemma extends_refl (w : World) : extends w w [] [] 0.
Proof.
  unfold extends. rewrite !app_nil_r, Nat.add_0_r. repeat split.
Qed.

Lemma extends_trans (w w1 w2 : World) t1 t2 o1 o2 d1 d2 :
  extends w w1 t1 o1 d1 -> extends w1 w2 t2 o2 d2 ->
  extends w w2 (t1 ++ t2) (o1 ++ o2) (d1 + d2).
Proof.
  unfold extends.
  intros (Hp1 & Ho1 & He1 & Hd1 & Hc1 & Hr1 & Hk1)
         (Hp2 & Ho2 & He2 & Hd2 & Hc2 & Hr2 & Hk2).
  rewrite Hp2, Hp1, Ho2, Ho1, He2, He1, Hd2, Hd1, Hc2, Hc1, Hr2, Hr1, Hk2, Hk1.
  rewrite !app_assoc, Nat.add_assoc. repeat split.
Qed.

Lemma runs_ret {A : Type} (a : A) (w : World) : runs (ret a) w a [] [] 0.
Proof. exists w. split; [reflexivity|apply extends_refl]. Qed.

Lemma runs_bind {A B : Type} (m : M A) (k : A -> M B) (w : World)
    a b t1 t2 o1 o2 d1 d2 :
  runs m w a t1 o1 d1 ->
  (forall w1, extends w w1 t1 o1 d1 -> runs (k a) w1 b t2 o2 d2) ->
  runs (bind m k) w b (t1 ++ t2) (o1 ++ o2) (d1 + d2).
Proof.
  intros (w1 & Hm & E1) Hk.
  destruct (Hk w1 E1) as (w2 & Hk2 & E2).
  exists w2. split.
  - unfold bind. rewrite Hm. exact Hk2.
  - eapply extends_trans; eassumption.
Qed.

Lemma runs_emit (i : instr) (w : World) : runs (emit i) w tt [i] [] 0.
Proof.
  eexists. split; [reflexivity|]. unfold extends. simpl.
  rewrite app_nil_r, Nat.add_0_r. repeat split.
Qed.

Lemma runs_print (line : string) (w : World) :
  runs (print line) w tt [] [line] 0.
Proof.
  eexists. split; [reflexivity|]. unfold extends. simpl.
  rewrite app_nil_r, Nat.add_0_r. repeat split.
Qed.

Lemma runs_when_print (b : bool) (line : string) (w : World) :
  runs (when b (print line)) w tt [] (if b then [line] else []) 0.
Proof. destruct b; [apply runs_print|apply runs_ret]. Qed.

Lemma runs_urandom (n : nat) (w : World) :
  runs (urandom n) w (map (entropy w) (seq (cursor w) n)) [] [] n.
Proof.
  eexists. split; [reflexivity|]. unfold extends. simpl.
  rewrite !app_nil_r. repeat split.
Qed.

Lemma runs_eq {A : Type} (m : M A) (w : World) a t t' o o' d d' :
  runs m w a t o d -> t = t' -> o = o' -> d = d' -> runs m w a t' o' d'.
Proof. intros H -> -> ->. exact H. Qed.

Lemma runs_for {A : Type} (body : A -> M unit)
    (f : nat -> A -> list instr) (g : A -> list string) (d : nat)
    (rng : nat -> byte) :
  (forall x w, entropy w = rng -> runs (body x) w tt (f (cursor w) x) (g x) d) ->
  forall l w, entropy w = rng ->
  runs (for_ l body) w tt (trace_fold f d (cursor w) l) (flat_map g l)
    (d * List.length l).
Proof.
  intros Hbody l. induction l as [|x l IH]; intros w Hw.
  - simpl. rewrite Nat.mul_0_r. apply runs_ret.
  - cbn [for_ trace_fold flat_map List.length].
    eapply runs_eq.
    + eapply runs_bind; [apply Hbody; exact Hw|].
      intros w1 E1.
      assert (Hw1 : entropy w1 = rng).
      { destruct E1 as (_ & _ & _ & _ & _ & Hr & _). congruence. }
      pose proof (IH w1 Hw1) as H.
      destruct E1 as (_ & _ & _ & _ & _ & _ & Hk).
      rewrite Hk in H. exact H.
    + reflexivity.
    + reflexivity.
    + lia.
Qed.

End RunFacts.

Section ProgramRuns.

Context {metrics : Metrics}.

Local Open Scope list_scope.

(** Sequencing, with the entropy source and the cursor named. *)
Lemma runs_bind_at {A B : Type} (m : M A) (k : A -> M B) (w : World)
    (rng : nat -> byte) (c : nat) a b t1 t2 o1 o2 d1 d2 :
  entropy w = rng -> cursor w = c ->
  runs m w a t1 o1 d1 ->
  (forall w1, entropy w1 = rng -> cursor w1 = (c + d1)%nat ->
     runs (k a) w1 b t2 o2 d2) ->
  runs (bind m k) w b (t1 ++ t2) (o1 ++ o2) (d1 + d2).
Proof.
  intros Hr Hc Hm Hk. eapply runs_bind; [exact Hm|].
  intros w1 (_ & _ & _ & _ & _ & Hr1 & Hc1).
  apply Hk; congruence.
Qed.

Lemma seq_map_length (rng : nat -> byte) (c n : nat) :
  List.length (map rng (seq c n)) = n.
Proof. rewrite length_map, length_seq. reflexivity. Qed.

Lemma uuid_at_ok (rng : nat -> byte) (c : nat) :
  exists u,
    Uuid.UUID_of_bytes (map rng (seq c 16)) 4 = inr u /\
    0 <= Uuid.int u < 2 ^ 128 /\
    uuid_hex_at rng c = Uuid.hex u.
Proof.
  destruct (UUID_of_bytes_16 (map rng (seq c 16)) (seq_map_length _ _ _))
    as (u & Hu & Hr).
  exists u. unfold uuid_hex_at. rewrite Hu. auto.
Qed.

Lemma generate_uuid4_without_dashes_runs (w : World) rng c :
  entropy w = rng -> cursor w = c ->
  runs generate_uuid4_without_dashes w (uuid_hex_at rng c) [] [] 16.
Proof.
  intros Hr Hc. destruct (uuid_at_ok rng c) as (u & Hu & _ & Hhex).
  rewrite Hhex. unfold generate_uuid4_without_dashes, uuid4.
  eapply runs_eq.
  - eapply (runs_bind_at _ _ w rng c); [exact Hr|exact Hc| |].
    + eapply (runs_bind_at _ _ w rng c); [exact Hr|exact Hc|apply runs_urandom|].
      intros w1 _ _. rewrite Hr, Hc, Hu. apply runs_ret.
    + intros w1 _ _. apply runs_ret.
  - reflexivity.
  - reflexivity.
  - reflexivity.
Qed.

Lemma draw_row_runs (cfg : LayoutConfig) (ml mr row : Z) (w : World) rng c :
  entropy w = rng -> cursor w = c ->
  runs (draw_row cfg ml mr row) w tt (row_instrs cfg ml mr rng c row) [] 16.
Proof.
  intros Hr Hc. unfold draw_row, row_instrs.
  destruct (qr_position cfg row (row_box cfg ml mr row)) as [x_qr y_qr].
  eapply runs_eq.
  - eapply (runs_bind_at _ _ w rng c); [exact Hr|exact Hc| |].
    + apply generate_uuid4_without_dashes_runs; [exact Hr|exact Hc].
    + intros w1 _ _.
      eapply runs_bind; [apply runs_emit|].
      intros w2 _. apply runs_emit.
  - reflexivity.
  - reflexivity.
  - reflexivity.
Qed.

Lemma rows_run (cfg : LayoutConfig) (ml mr : Z) (l : list Z) (w : World) rng c :
  entropy w = rng -> cursor w = c ->
  runs (for_ l (draw_row cfg ml mr)) w tt
    (trace_fold (row_instrs cfg ml mr rng) 16 c l) [] (16 * List.length l).
Proof.
  intros Hr Hc. eapply runs_eq.
  - apply (runs_for (draw_row cfg ml mr) (row_instrs cfg ml mr rng)
             (fun _ => []) 16 rng); [|exact Hr].
    intros x w' Hw'. apply draw_row_runs; [exact Hw'|reflexivity].
  - rewrite Hc. reflexivity.
  - clear. induction l; [reflexivity|assumption].
  - reflexivity.
Qed.

Lemma draw_page_runs (cfg : LayoutConfig) (num_pages start_page : Z)
    (double_sided : bool) (page_num : Z) (w : World) rng c :
  entropy w = rng -> cursor w = c ->
  runs (draw_page cfg num_pages start_page double_sided page_num) w tt
    (page_instrs cfg start_page double_sided rng c page_num)
    (page_lines num_pages page_num) (page_entropy cfg).
Proof.
  intros Hr Hc.
  unfold draw_page, page_instrs, page_rows, page_lines, page_entropy,
    label_instrs, page_label.
  destruct (page_margins cfg double_sided (start_page + page_num))
    as [ml mr].
  cbn [fst snd].
  eapply runs_eq.
  - eapply (runs_bind_at _ _ w rng c); [exact Hr|exact Hc| |].
    + apply runs_when_print.
    + intros w1 Hr1 Hc1.
      eapply (runs_bind_at _ _ w1 rng); [exact Hr1|exact Hc1| |].
      * apply rows_run; [exact Hr1|exact Hc1].
      * intros w2 _ _.
        eapply runs_bind; [apply runs_emit|]. intros w3 _.
        eapply runs_bind; [apply runs_emit|]. intros w4 _.
        apply runs_emit.
  - rewrite Nat.add_0_r. reflexivity.
  - rewrite !app_nil_r. reflexivity.
  - lia.
Qed.

Lemma generate_pdf_with_runs (cfg : LayoutConfig) (num_pages : Z)
    (output_filename : string) (start_page : Z) (double_sided : bool)
    (w : World) rng c :
  entropy w = rng -> cursor w = c ->
  runs (generate_pdf_with cfg num_pages output_filename start_page
          double_sided) w tt
    (document_instrs cfg num_pages output_filename start_page double_sided
       rng c)
    (document_lines cfg num_pages output_filename start_page double_sided)
    (page_entropy cfg * List.length (range num_pages)).
Proof.
  intros Hr Hc. unfold generate_pdf_with, document_instrs, document_lines.
  eapply runs_eq.
  - eapply (runs_bind_at _ _ w rng c); [exact Hr|exact Hc|apply runs_emit|].
    intros w1 Hr1 Hc1.
    eapply (runs_bind_at _ _ w1 rng); [exact Hr1|exact Hc1|apply runs_print|].
    intros w2 Hr2 Hc2.
    eapply (runs_bind_at _ _ w2 rng); [exact Hr2|exact Hc2|apply runs_print|].
    intros w3 Hr3 Hc3.
    eapply (runs_bind_at _ _ w3 rng); [exact Hr3|exact Hc3|apply runs_when_print|].
    intros w4 Hr4 Hc4.
    eapply (runs_bind_at _ _ w4 rng); [exact Hr4|exact Hc4| |].
    + eapply runs_eq.
      * apply (runs_for
                 (draw_page cfg num_pages start_page double_sided)
                 (fun c => page_instrs cfg start_page double_sided rng c)
                 (page_lines num_pages) (page_entropy cfg) rng); [|exact Hr4].
        intros x w' Hw'. apply draw_page_runs; [exact Hw'|reflexivity].
      * rewrite Hc4. reflexivity.
      * reflexivity.
      * reflexivity.
    + intros w5 _ _.
      eapply runs_bind; [apply runs_emit|]. intros w6 _.
      eapply runs_bind; [apply runs_print|]. intros w7 _.
      apply runs_print.
  - rewrite !Nat.add_0_r. reflexivity.
  - reflexivity.
  - lia.
Qed.

End ProgramRuns.

(** ** Page geometry *)

Lemma even_mod_2 (p : Z) : (p mod 2 =? 0) = Z.even p.
Proof.
  rewrite Zeven_mod. reflexivity.
Qed.

(** C1.  Without double-sided mode the margins of a page are the table's
    left and right margins, whatever the page number; in double-sided mode
    they are swapped exactly on the even page numbers.  This holds for every
    layout table and every integer page number, in particular for the page
    numbers from 1 on. *)
Theorem page_margins_by_parity (cfg : LayoutConfig) (actual_page_num : Z) :
  page_margins cfg false actual_page_num = (margin_left cfg, margin_right cfg) /\
  page_margins cfg true actual_page_num =
    if Z.even actual_page_num
    then (margin_right cfg, margin_left cfg)
    else (margin_left cfg, margin_right cfg).
Proof.
  unfold page_margins. split; [reflexivity|].
  cbn [andb]. rewrite even_mod_2. reflexivity.
Qed.

(** C2.  For a row index inside the page and any pair of margins, the box
    of the row is [page_width - left - right] wide, starts at the left
    margin, and its bottom edge is
    [page_height - margin_top - row * row_spacing - box_height]; so the
    bottom edge of the next row is exactly [row_spacing] lower, and with a
    positive row spacing every later row lies strictly lower. *)
Theorem row_box_geometry (cfg : LayoutConfig) (ml mr row : Z) :
  0 <= row < codes_per_page cfg ->
  0 < row_spacing cfg ->
  let box := row_box cfg ml mr row in
  rect_width box = page_width cfg - ml - mr /\
  rect_x box = ml /\
  rect_y box =
    page_height cfg - margin_top cfg - row * row_spacing cfg - box_height cfg /\
  rect_y box - rect_y (row_box cfg ml mr (row + 1)) = row_spacing cfg /\
  forall row', row < row' ->
    rect_y (row_box cfg ml mr row') < rect_y box.
Proof.
  intros Hrow Hsp. cbn. repeat split; try lia.
  intros row' Hlt. nia.
Qed.

Lemma row_box_geometry_witness :
  (0 <= 3 < codes_per_page LAYOUT) /\ 0 < row_spacing LAYOUT /\
  rect_y (row_box LAYOUT 72 36 3) = 468 /\
  rect_y (row_box LAYOUT 72 36 3) - rect_y (row_box LAYOUT 72 36 (3 + 1)) = 72.
Proof.
  assert (H1 : 0 <= 3 < codes_per_page LAYOUT) by (cbn; lia).
  assert (H2 : 0 < row_spacing LAYOUT) by (cbn; lia).
  destruct (row_box_geometry LAYOUT 72 36 3 H1 H2) as (_ & _ & Hy & Hgap & _).
  split; [exact H1|]. split; [exact H2|]. split; [exact Hy|exact Hgap].
Defined.

(** C3.  The code image sits [qr_padding] right of the box's left edge on
    even rows and [qr_padding] left of its right edge on odd rows; its
    bottom edge is always [qr_padding] above the bottom of the box. *)
Theorem qr_position_by_parity (cfg : LayoutConfig) (row : Z) (box : BoxRect) :
  qr_position cfg row box =
    (if Z.even row
     then rect_x box + qr_padding cfg
     else rect_x box + rect_width box - qr_size cfg - qr_padding cfg,
     rect_y box + qr_padding cfg).
Proof.
  unfold qr_position. rewrite even_mod_2. reflexivity.
Qed.

(** ** Identifier generation *)

(** C4.  Every call of [generate_uuid4_without_dashes] returns, without
    raising, a string of exactly 32 characters, each of them one of
    [0-9a-f] and none of them a hyphen.  The string is the hexadecimal
    numeral of a 128-bit integer laid out as a version 4 UUID: version
    nibble 4, variant bits [10]. *)
Theorem generate_uuid4_without_dashes_hex32 {metrics : Metrics} (w : World) :
  exists (s : string) (w' : World) (u : Uuid.UUID),
    generate_uuid4_without_dashes w = (Ret s, w') /\
    String.length s = 32%nat /\
    string_forallb is_hex_char s = true /\
    string_forallb (is_not "-") s = true /\
    Z.of_N (string_value 16 s) = Uuid.int u /\
    0 <= Uuid.int u < 2 ^ 128 /\
    Uuid.version_bits u = 4 /\ Uuid.variant_bits u = 2.
Proof.
  destruct (generate_uuid4_without_dashes_runs w _ _ eq_refl eq_refl)
    as (w' & Hrun & _).
  destruct (uuid_at_ok (entropy w) (cursor w)) as (u & Hu & Hrange & Hhex).
  destruct (hex_of_128_bits _ Hrange) as [Hlen Hall].
  destruct (UUID_of_bytes_layout _ _ Hu) as [Hver Hvar].
  exists (uuid_hex_at (entropy w) (cursor w)), w', u.
  split; [exact Hrun|]. rewrite Hhex. unfold Uuid.hex.
  split; [exact Hlen|]. split; [exact Hall|]. split.
  { apply (string_forallb_impl is_hex_char);
      [apply hex_char_not_hyphen|exact Hall]. }
  split; [apply hex_value; lia|]. auto.
Qed.

(** ** The shape of a document *)

Section TraceFacts.

Context {metrics : Metrics}.

Local Open Scope list_scope.

Lemma range_length (n : Z) : List.length (range n) = Z.to_nat n.
Proof. unfold range. rewrite length_map, length_seq. reflexivity. Qed.

Lemma count_app (p : instr -> bool) (l1 l2 : list instr) :
  count p (l1 ++ l2) = (count p l1 + count p l2)%nat.
Proof. unfold count. rewrite filter_app, length_app. reflexivity. Qed.

Lemma count_trace_fold {A : Type} (p : instr -> bool)
    (f : nat -> A -> list instr) (d k : nat) :
  (forall c x, count p (f c x) = k) ->
  forall l c, count p (trace_fold f d c l) = (k * List.length l)%nat.
Proof.
  intros Hf l. induction l as [|x l IH]; intros c; simpl.
  - rewrite Nat.mul_0_r. reflexivity.
  - rewrite count_app, Hf, IH. lia.
Qed.

Lemma Forall_trace_fold {A : Type} (P : instr -> Prop)
    (f : nat -> A -> list instr) (d : nat) :
  (forall c x, Forall P (f c x)) ->
  forall l c, Forall P (trace_fold f d c l).
Proof.
  intros Hf l. induction l as [|x l IH]; intros c; simpl.
  - constructor.
  - apply Forall_app. split; [apply Hf|apply IH].
Qed.

Lemma label_of_app (l1 l2 : list instr) :
  label_of (l1 ++ l2) = label_of l1 ++ label_of l2.
Proof. unfold label_of. apply flat_map_app. Qed.

Lemma label_of_trace_fold {A : Type} (f : nat -> A -> list instr) (d : nat) :
  (forall c x, label_of (f c x) = []) ->
  forall l c, label_of (trace_fold f d c l) = [].
Proof.
  intros Hf l. induction l as [|x l IH]; intros c; simpl; [reflexivity|].
  rewrite label_of_app, Hf, IH. reflexivity.
Qed.

Lemma trace_fold_ext {A : Type} (f g : nat -> A -> list instr) (d : nat) :
  (forall c x, f c x = g c x) ->
  forall l c, trace_fold f d c l = trace_fold g d c l.
Proof.
  intros Hfg l. induction l as [|x l IH]; intros c; simpl; [reflexivity|].
  rewrite Hfg, IH. reflexivity.
Qed.

(** Splitting a trace into pages. *)

Lemma split_pages_no_ShowPage (l : list instr) :
  no_ShowPage l -> split_pages l = ([], l).
Proof.
  induction 1 as [|i l Hi _ IH]; [reflexivity|].
  simpl. rewrite IH. destruct i; try reflexivity. discriminate Hi.
Qed.

Lemma split_pages_page (body rest : list instr) :
  no_ShowPage body ->
  split_pages (body ++ ShowPage :: rest) =
    (body :: fst (split_pages rest), snd (split_pages rest)).
Proof.
  induction 1 as [|i l Hi _ IH].
  - simpl. destruct (split_pages rest). reflexivity.
  - simpl. rewrite IH. destruct i; try reflexivity. discriminate Hi.
Qed.

Lemma split_pages_fold {A : Type} (f : nat -> A -> list instr) (d : nat)
    (tail : list instr) :
  (forall c x, no_ShowPage (f c x)) -> no_ShowPage tail ->
  forall l c,
  split_pages (trace_fold (fun c x => f c x ++ [ShowPage]) d c l ++ tail) =
    (pages_fold f d c l, tail).
Proof.
  intros Hf Htail l. induction l as [|x l IH]; intros c; simpl.
  - apply split_pages_no_ShowPage. exact Htail.
  - rewrite <- !app_assoc. cbn [app].
    rewrite split_pages_page by apply Hf. rewrite IH. reflexivity.
Qed.

Lemma Forall2_pages_fold {A : Type} (R : list instr -> A -> Prop)
    (f : nat -> A -> list instr) (d : nat) :
  (forall c x, R (f c x) x) ->
  forall l c, Forall2 R (pages_fold f d c l) l.
Proof.
  intros Hf l. induction l as [|x l IH]; intros c; simpl; constructor.
  - apply Hf.
  - apply IH.
Qed.

(** Rows. *)

Lemma rows_of_row (cfg : LayoutConfig) (ml mr : Z) rng c row
    (rest : list instr) :
  rows_of (row_instrs cfg ml mr rng c row ++ rest) =
    row_geometry cfg ml mr row :: rows_of rest.
Proof.
  unfold row_instrs, row_geometry. cbn [app rows_of]. reflexivity.
Qed.

Lemma rows_of_rows (cfg : LayoutConfig) (ml mr : Z) rng (rest : list instr) :
  forall l c,
  rows_of (trace_fold (row_instrs cfg ml mr rng) 16 c l ++ rest) =
    map (row_geometry cfg ml mr) l ++ rows_of rest.
Proof.
  induction l as [|x l IH]; intros c; [reflexivity|].
  cbn [trace_fold map]. rewrite <- app_assoc, rows_of_row, IH. reflexivity.
Qed.

End TraceFacts.

Section DocumentFacts.

Context {metrics : Metrics}.

Local Open Scope list_scope.

Lemma page_body_eq (cfg : LayoutConfig) (sp : Z) (ds : bool) rng c (i : Z) :
  page_body cfg sp ds rng c i =
    page_rows cfg sp ds rng c i ++
    removelast
      (label_instrs cfg (snd (page_margins cfg ds (sp + i))) (page_label sp i)).
Proof.
  unfold page_body, page_instrs. apply removelast_app. discriminate.
Qed.

Lemma page_instrs_body (cfg : LayoutConfig) (sp : Z) (ds : bool) rng c (i : Z) :
  page_instrs cfg sp ds rng c i = page_body cfg sp ds rng c i ++ [ShowPage].
Proof.
  rewrite page_body_eq. unfold page_instrs, label_instrs.
  rewrite <- app_assoc. reflexivity.
Qed.

Lemma page_margins_sum (cfg : LayoutConfig) (ds : bool) (p : Z) :
  fst (page_margins cfg ds p) + snd (page_margins cfg ds p) =
    margin_left cfg + margin_right cfg.
Proof.
  unfold page_margins. destruct (ds && (p mod 2 =? 0)); cbn [fst snd]; lia.
Qed.

Lemma page_rows_count (p : instr -> bool) (k : nat) (cfg : LayoutConfig)
    (sp : Z) (ds : bool) rng c (i : Z) :
  (forall ml mr c row, count p (row_instrs cfg ml mr rng c row) = k) ->
  count p (page_rows cfg sp ds rng c i) =
    (k * Z.to_nat (codes_per_page cfg))%nat.
Proof.
  intros Hk. unfold page_rows.
  rewrite (count_trace_fold p _ 16 k) by (intros; apply Hk).
  rewrite range_length. reflexivity.
Qed.

Lemma page_body_no_ShowPage (cfg : LayoutConfig) (sp : Z) (ds : bool) rng c
    (i : Z) :
  no_ShowPage (page_body cfg sp ds rng c i).
Proof.
  rewrite page_body_eq. apply Forall_app. split.
  - apply Forall_trace_fold. intros c' x. repeat constructor.
  - repeat constructor.
Qed.

Lemma page_body_ok (cfg : LayoutConfig) (sp : Z) (ds : bool) rng c (i : Z) :
  page_ok cfg sp ds (page_body cfg sp ds rng c i) i.
Proof.
  rewrite page_body_eq. unfold page_ok. repeat split.
  - unfold page_rows, page_geometry. rewrite rows_of_rows.
    cbn [label_instrs removelast rows_of]. apply app_nil_r.
  - rewrite label_of_app. unfold page_rows.
    rewrite label_of_trace_fold by reflexivity. reflexivity.
  - rewrite count_app, (page_rows_count is_Rect 1) by reflexivity.
    cbn. lia.
  - rewrite count_app, (page_rows_count is_DrawInlineImage 1) by reflexivity.
    cbn. lia.
  - rewrite count_app, (page_rows_count is_Save 0) by reflexivity.
    reflexivity.
  - apply Forall_app. split.
    + apply Forall_trace_fold. intros c' x.
      unfold row_instrs. repeat constructor.
      cbn. pose proof (page_margins_sum cfg ds (sp + i)). lia.
    + repeat constructor.
Qed.

Lemma page_ok_NewCanvas (cfg : LayoutConfig) (sp : Z) (ds : bool)
    (filename : string) (page : list instr) (i : Z) :
  page_ok cfg sp ds page i ->
  page_ok cfg sp ds (NewCanvas filename letter :: page) i.
Proof.
  intros (Hrows & Hlabel & Hrect & Himg & Hsave & Hw).
  unfold page_ok. repeat split; try assumption.
  constructor; [exact I|assumption].
Qed.

(** The document a run of [generate_pdf] makes. *)
Lemma generate_pdf_with_document (cfg : LayoutConfig) (n : Z)
    (filename : string) (sp : Z) (ds : bool) (w : World) :
  exists (w' : World) (calls : list instr),
    generate_pdf_with cfg n filename sp ds w = (Ret tt, w') /\
    pdf w' = pdf w ++ calls ++ [Save] /\
    stdout w' = stdout w ++ document_lines cfg n filename sp ds /\
    stderr w' = stderr w /\ dirs w' = dirs w /\
    count is_Save calls = 0%nat /\
    count is_ShowPage calls = Z.to_nat n /\
    Forall2 (page_ok cfg sp ds) (fst (split_pages (calls ++ [Save]))) (range n).
Proof.
  destruct (generate_pdf_with_runs cfg n filename sp ds w _ _ eq_refl eq_refl)
    as (w' & Hrun & Hpdf & Hout & Herr & Hdirs & _).
  set (pages := trace_fold (page_instrs cfg sp ds (entropy w))
                  (page_entropy cfg) (cursor w) (range n)) in *.
  exists w', (NewCanvas filename letter :: pages).
  split; [exact Hrun|]. split; [exact Hpdf|]. split; [exact Hout|].
  split; [exact Herr|]. split; [exact Hdirs|].
  assert (Hsave : forall c x,
            count is_Save (page_instrs cfg sp ds (entropy w) c x) = 0%nat).
  { intros c x. unfold page_instrs. rewrite count_app.
    rewrite (page_rows_count is_Save 0) by reflexivity. reflexivity. }
  assert (Hshow : forall c x,
            count is_ShowPage (page_instrs cfg sp ds (entropy w) c x) = 1%nat).
  { intros c x. unfold page_instrs. rewrite count_app.
    rewrite (page_rows_count is_ShowPage 0) by reflexivity. reflexivity. }
  split; [|split].
  - change (count is_Save (NewCanvas filename letter :: pages))
      with (count is_Save pages).
    unfold pages. rewrite (count_trace_fold is_Save _ _ 0) by exact Hsave.
    reflexivity.
  - change (count is_ShowPage (NewCanvas filename letter :: pages))
      with (count is_ShowPage pages).
    unfold pages. rewrite (count_trace_fold is_ShowPage _ _ 1) by exact Hshow.
    rewrite range_length. lia.
  - unfold pages.
    rewrite (trace_fold_ext _
               (fun c x => page_body cfg sp ds (entropy w) c x ++ [ShowPage]))
      by (intros; apply page_instrs_body).
    cbn [app split_pages].
    rewrite split_pages_fold;
      [|intros; apply page_body_no_ShowPage|repeat constructor].
    clear. destruct (range n) as [|i js]; cbn [pages_fold fst].
    + constructor.
    + constructor.
      * apply page_ok_NewCanvas, page_body_ok.
      * apply Forall2_pages_fold. intros. apply page_body_ok.
Qed.

End DocumentFacts.

(** ** Pages and documents *)

Lemma Forall2_Forall_l {A B : Type} (R : A -> B -> Prop) (P : A -> Prop)
    (l : list A) (l' : list B) :
  (forall a b, R a b -> P a) -> Forall2 R l l' -> Forall P l.
Proof.
  intros HRP H. induction H; constructor; eauto.
Qed.

Lemma Forall2_length_l {A B : Type} (R : A -> B -> Prop)
    (l : list A) (l' : list B) :
  Forall2 R l l' -> List.length l = List.length l'.
Proof. intros H. induction H; simpl; congruence. Qed.

Lemma Forall2_map_l {A B C : Type} (R : A -> B -> Prop) (f : A -> C)
    (g : B -> C) (l : list A) (l' : list B) :
  (forall a b, R a b -> f a = g b) -> Forall2 R l l' -> map f l = map g l'.
Proof.
  intros Hfg H. induction H; simpl; [reflexivity|].
  f_equal; eauto.
Qed.

(** C5.  The body of the page loop, run for the page with number
    [p = start_page + page_num], first draws the rows (boxes and images,
    no text), then sets the font and draws the text ["Page p"] at
    [x = page_width - right margin - stringWidth(text)] and
    [y = margin_bottom - 20], and then ends the page.  The right margin is
    the one in force on that page. *)
Theorem draw_page_label {metrics : Metrics} (cfg : LayoutConfig)
    (num_pages start_page : Z) (double_sided : bool) (page_num : Z)
    (w : World) :
  let p := start_page + page_num in
  let label := ("Page " ++ Text.str p)%string in
  let right := snd (page_margins cfg double_sided p) in
  exists (w' : World) (rows : list instr),
    draw_page cfg num_pages start_page double_sided page_num w = (Ret tt, w') /\
    pdf w' =
      (pdf w ++ rows ++
       [SetFont "Helvetica" 10;
        DrawString
          (num_sub (num_of_int (page_width cfg - right))
             (stringWidth label "Helvetica" 10))
          (margin_bottom cfg - 20) label;
        ShowPage])%list /\
    count is_Rect rows = Z.to_nat (codes_per_page cfg) /\
    count is_DrawInlineImage rows = Z.to_nat (codes_per_page cfg) /\
    count is_DrawString rows = 0%nat /\
    List.length rows = (2 * Z.to_nat (codes_per_page cfg))%nat.
Proof.
  intros p label right.
  destruct (draw_page_runs cfg num_pages start_page double_sided page_num w
              _ _ eq_refl eq_refl) as (w' & Hrun & Hpdf & _).
  exists w', (page_rows cfg start_page double_sided (entropy w) (cursor w)
                page_num).
  split; [exact Hrun|]. split; [exact Hpdf|].
  rewrite (page_rows_count is_Rect 1), (page_rows_count is_DrawInlineImage 1),
    (page_rows_count is_DrawString 0) by reflexivity.
  split; [lia|]. split; [lia|]. split; [lia|].
  pose proof (page_rows_count (fun _ => true) 2 cfg start_page double_sided
                (entropy w) (cursor w) page_num (fun _ _ _ _ => eq_refl)) as H.
  unfold count in H. rewrite <- H. clear H.
  generalize (page_rows cfg start_page double_sided (entropy w) (cursor w)
                page_num).
  intros l. induction l as [|i l IH]; simpl; congruence.
Qed.

(** C8.  A run of [generate_pdf] for [num_pages] pages returns normally;
    its canvas calls end with the one and only [Save]; the calls before it
    make exactly [num_pages] pages, each with exactly [codes_per_page] boxes
    and as many code images, and the page with index [i] carries the single
    label ["Page (start_page + i)"]. *)
Theorem generate_pdf_pages {metrics : Metrics} (cfg : LayoutConfig)
    (num_pages : Z) (output_filename : string) (start_page : Z)
    (double_sided : bool) (w : World) :
  0 <= num_pages -> 0 <= codes_per_page cfg ->
  exists (w' : World) (calls : list instr) (pages : list (list instr)),
    generate_pdf_with cfg num_pages output_filename start_page double_sided w
      = (Ret tt, w') /\
    pdf w' = (pdf w ++ calls ++ [Save])%list /\
    count is_Save calls = 0%nat /\
    fst (split_pages (calls ++ [Save])) = pages /\
    Z.of_nat (List.length pages) = num_pages /\
    Z.of_nat (count is_ShowPage calls) = num_pages /\
    Forall (fun page =>
              Z.of_nat (count is_Rect page) = codes_per_page cfg /\
              Z.of_nat (count is_DrawInlineImage page) = codes_per_page cfg /\
              Z.of_nat (List.length (rows_of page)) = codes_per_page cfg)
      pages /\
    map label_of pages =
      map (fun i => [("Page " ++ Text.str (start_page + i))%string])
        (range num_pages).
Proof.
  intros Hn Hc.
  destruct (generate_pdf_with_document cfg num_pages output_filename
              start_page double_sided w)
    as (w' & calls & Hrun & Hpdf & _ & _ & _ & Hsave & Hshow & Hpages).
  exists w', calls, (fst (split_pages (calls ++ [Save]))).
  split; [exact Hrun|]. split; [exact Hpdf|]. split; [exact Hsave|].
  split; [reflexivity|]. split; [|split; [|split]].
  - rewrite (Forall2_length_l _ _ _ Hpages), range_length. lia.
  - rewrite Hshow. lia.
  - eapply Forall2_Forall_l; [|exact Hpages].
    intros pg i (Hrows & _ & Hrect & Himg & _).
    rewrite Hrect, Himg, Hrows. unfold page_geometry.
    rewrite length_map, range_length. lia.
  - eapply Forall2_map_l; [|exact Hpages].
    intros pg i (_ & Hlabel & _). exact Hlabel.
Qed.

Lemma generate_pdf_pages_witness :
  0 <= 2 /\ 0 <= codes_per_page LAYOUT /\
  exists (w' : @World sym_metrics) (calls : list instr)
         (pages : list (list instr)),
    generate_pdf 2 "out.pdf" 1 false sample_world = (Ret tt, w') /\
    pdf w' = (calls ++ [Save])%list /\
    count is_Save calls = 0%nat /\
    fst (split_pages (calls ++ [Save])) = pages /\
    Z.of_nat (List.length pages) = 2 /\
    Forall (fun page =>
              Z.of_nat (count is_Rect page) = 10 /\
              Z.of_nat (count is_DrawInlineImage page) = 10 /\
              Z.of_nat (List.length (rows_of page)) = 10)
      pages /\
    map label_of pages = [["Page 1"]; ["Page 2"]].
Proof.
  assert (H1 : 0 <= 2) by lia.
  assert (H2 : 0 <= codes_per_page LAYOUT) by (cbn; lia).
  split; [exact H1|]. split; [exact H2|].
  destruct (generate_pdf_pages LAYOUT 2 "out.pdf" 1 false sample_world H1 H2)
    as (w' & calls & pages & Hrun & Hpdf & Hsave & Hsplit & Hlen & _ & Hrows
        & Hlabels).
  exists w', calls, pages.
  split; [exact Hrun|]. split; [exact Hpdf|]. split; [exact Hsave|].
  split; [exact Hsplit|]. split; [exact Hlen|]. split; [exact Hrows|].
  exact Hlabels.
Defined.

(** C9.  Swapping the margins does not change their sum, so the width of
    the box is the same for every page number, with or without double-sided
    mode: [page_width - margin_left - margin_right], which is 504 in
    [LAYOUT].  Every box that a run of [generate_pdf] draws has that
    width. *)
Theorem box_width_invariant {metrics : Metrics} (cfg : LayoutConfig)
    (num_pages : Z) (output_filename : string) (start_page : Z)
    (double_sided : bool) (w : World) :
  (forall (ds : bool) (p row : Z),
     let m := page_margins cfg ds p in
     fst m + snd m = margin_left cfg + margin_right cfg /\
     rect_width (row_box cfg (fst m) (snd m) row) =
       page_width cfg - margin_left cfg - margin_right cfg) /\
  page_width LAYOUT - margin_left LAYOUT - margin_right LAYOUT = 504 /\
  exists (w' : World) (calls : list instr),
    generate_pdf_with cfg num_pages output_filename start_page double_sided w
      = (Ret tt, w') /\
    pdf w' = (pdf w ++ calls)%list /\
    Z.of_nat (count is_Rect calls) =
      Z.of_nat (Z.to_nat num_pages) * Z.of_nat (Z.to_nat (codes_per_page cfg)) /\
    Forall (rect_has_width
              (page_width cfg - margin_left cfg - margin_right cfg)) calls.
Proof.
  split; [|split; [reflexivity|]].
  - intros ds p row m. pose proof (page_margins_sum cfg ds p) as Hsum.
    split; [exact Hsum|]. subst m. unfold row_box. cbn [rect_width]. lia.
  - destruct (generate_pdf_with_runs cfg num_pages output_filename start_page
                double_sided w _ _ eq_refl eq_refl)
      as (w' & Hrun & Hpdf & _).
    exists w', (document_instrs cfg num_pages output_filename start_page
                  double_sided (entropy w) (cursor w)).
    split; [exact Hrun|]. split; [exact Hpdf|].
    unfold document_instrs. split.
    + change (count is_Rect (NewCanvas output_filename letter :: ?l))
        with (count is_Rect l).
      rewrite count_app.
      rewrite (count_trace_fold is_Rect _ _ (Z.to_nat (codes_per_page cfg))).
      * rewrite range_length. cbn. lia.
      * intros c x. unfold page_instrs. rewrite count_app.
        rewrite (page_rows_count is_Rect 1) by reflexivity. cbn. lia.
    + constructor; [exact I|]. apply Forall_app. split; [|repeat constructor].
      apply Forall_trace_fold. intros c x.
      rewrite page_instrs_body. apply Forall_app. split; [|repeat constructor].
      apply page_body_ok.
Qed.

(** C10.  With the default layout the image of every row lies inside the
    box of that row, for every page number, in both modes and for every row
    index; and on every page of a document made by [generate_pdf] there are
    ten boxes with their images, each image inside its box. *)
Theorem qr_image_inside_box {metrics : Metrics} (num_pages : Z)
    (output_filename : string) (start_page : Z) (double_sided : bool)
    (w : World) :
  (forall (ds : bool) (p row : Z),
     let m := page_margins LAYOUT ds p in
     inside (row_geometry LAYOUT (fst m) (snd m) row)) /\
  exists (w' : World) (calls : list instr),
    generate_pdf num_pages output_filename start_page double_sided w
      = (Ret tt, w') /\
    pdf w' = (pdf w ++ calls ++ [Save])%list /\
    List.length (fst (split_pages (calls ++ [Save]))) = Z.to_nat num_pages /\
    Forall (fun page =>
              List.length (rows_of page) = 10%nat /\
              Forall inside (rows_of page))
      (fst (split_pages (calls ++ [Save]))).
Proof.
  assert (Hin : forall (ds : bool) (p row : Z),
            let m := page_margins LAYOUT ds p in
            inside (row_geometry LAYOUT (fst m) (snd m) row)).
  { intros ds p row m. pose proof (page_margins_sum LAYOUT ds p) as Hsum.
    fold m in Hsum. unfold row_geometry, inside.
    unfold qr_position. rewrite even_mod_2. unfold row_box, LAYOUT in *.
    cbn [rect_x rect_y rect_width rect_height fst snd page_width page_height
         margin_top margin_left margin_right box_height qr_padding qr_size
         row_spacing] in *.
    destruct (Z.even row); lia. }
  split; [exact Hin|].
  destruct (generate_pdf_with_document LAYOUT num_pages output_filename
              start_page double_sided w)
    as (w' & calls & Hrun & Hpdf & _ & _ & _ & _ & _ & Hpages).
  exists w', calls. split; [exact Hrun|]. split; [exact Hpdf|]. split.
  - rewrite (Forall2_length_l _ _ _ Hpages). apply range_length.
  - eapply Forall2_Forall_l; [|exact Hpages].
    intros pg i (Hrows & _). rewrite Hrows. unfold page_geometry. split.
    + rewrite length_map, range_length. reflexivity.
    + apply Forall_map. apply Forall_forall. intros row _. apply Hin.
Qed.

(** ** The timestamped file name *)

Lemma split_slash_no_slash (s : string) :
  string_forallb (is_not "/") s = true -> Pathlib.split_slash s = [s].
Proof.
  induction s as [|c s IH]; [reflexivity|]. simpl.
  intros H. apply andb_true_iff in H as [Hc Hs].
  unfold is_not in Hc. apply negb_true_iff in Hc. rewrite Hc, (IH Hs).
  reflexivity.
Qed.

Lemma rfind_dot_none (s : string) :
  string_forallb (is_not ".") s = true -> Pathlib.rfind_dot s = None.
Proof.
  induction s as [|c s IH]; [reflexivity|]. simpl.
  intros H. apply andb_true_iff in H as [Hc Hs].
  unfold is_not in Hc. apply negb_true_iff in Hc. rewrite Hc, (IH Hs).
  reflexivity.
Qed.

Lemma rfind_dot_last (st ext : string) :
  string_forallb (is_not ".") ext = true ->
  Pathlib.rfind_dot (st ++ String "." ext) = Some (String.length st).
Proof.
  intros Hext. induction st as [|c st IH]; simpl.
  - rewrite (rfind_dot_none _ Hext). reflexivity.
  - rewrite IH. reflexivity.
Qed.

Lemma substring_prefix (s t : string) :
  substring 0 (String.length s) (s ++ t) = s.
Proof.
  induction s as [|c s IH]; simpl.
  - destruct t; reflexivity.
  - rewrite IH. reflexivity.
Qed.

Lemma substring_all (t : string) : substring 0 (String.length t) t = t.
Proof. induction t as [|c t IH]; simpl; congruence. Qed.

Lemma substring_suffix (s t : string) :
  substring (String.length s) (String.length t) (s ++ t) = t.
Proof.
  induction s as [|c s IH]; simpl; [apply substring_all|exact IH].
Qed.

Lemma split_suffix_ext (st ext : string) :
  st <> "" -> ext <> "" ->
  string_forallb (is_not ".") ext = true ->
  Pathlib.split_suffix (st ++ String "." ext) = (st, String "." ext).
Proof.
  intros Hst Hext Hdots. unfold Pathlib.split_suffix.
  rewrite (rfind_dot_last _ _ Hdots), string_length_app. cbn [String.length].
  assert (H1 : (0 <? String.length st)%nat = true).
  { apply Nat.ltb_lt. destruct st; [contradiction|simpl; lia]. }
  assert (H2 : (String.length st <?
                String.length st + S (String.length ext) - 1)%nat = true).
  { apply Nat.ltb_lt. destruct ext; [contradiction|simpl; lia]. }
  rewrite H1, H2. cbn [andb].
  rewrite substring_prefix.
  replace (String.length st + S (String.length ext) - String.length st)%nat
    with (String.length (String "." ext)) by (simpl; lia).
  rewrite substring_suffix. reflexivity.
Qed.

Lemma name_plain (st ext : string) :
  ext <> "" ->
  string_forallb (is_not "/") (st ++ String "." ext) = true ->
  Pathlib.name (st ++ String "." ext) = (st ++ String "." ext)%string.
Proof.
  intros Hext Hslash. unfold Pathlib.name, Pathlib.parts.
  rewrite (split_slash_no_slash _ Hslash). cbn [filter].
  assert (Hkept : Pathlib.kept (st ++ String "." ext) = true).
  { unfold Pathlib.kept. destruct st as [|c st]; simpl.
    - destruct ext; [contradiction|reflexivity].
    - destruct (Ascii.eqb c "."); [|reflexivity].
      destruct st; reflexivity. }
  rewrite Hkept. reflexivity.
Qed.

Lemma format_0d_digits (k : nat) (z : Z) :
  0 <= z < 10 ^ Z.of_nat (S k) ->
  String.length (Text.format_0d (S k) z) = S k /\
  string_forallb is_digit (Text.format_0d (S k) z) = true.
Proof.
  intros [H0 Hlt]. unfold Text.format_0d.
  destruct (z <? 0) eqn:E; [apply Z.ltb_lt in E; lia|].
  unfold Text.decimal. split.
  - apply zero_pad_length.
    pose proof (digits_length_le 8 k (Z.to_N z) EmptyString) as Hd.
    simpl String.length in Hd. rewrite Nat.add_0_r in Hd. apply Hd.
    apply N2Z.inj_lt. rewrite Z2N.id, N2Z.inj_pow, nat_N_Z by lia.
    exact Hlt.
  - apply zero_pad_forallb; [reflexivity|].
    apply digits_forallb; [|reflexivity].
    intros d Hd. apply digit_char_digit. lia.
Qed.

Lemma timestamp_shape (now : Datetime.datetime) :
  Datetime.valid now ->
  exists date time : string,
    Datetime.strftime_Ymd_HMS now = (date ++ "-" ++ time)%string /\
    String.length date = 8%nat /\ String.length time = 6%nat /\
    string_forallb is_digit date = true /\
    string_forallb is_digit time = true.
Proof.
  intros (Hy & Hm & Hd & HH & HM & HS).
  destruct (format_0d_digits 3 (Datetime.year now)) as [Ly Dy]; [simpl; lia|].
  destruct (format_0d_digits 1 (Datetime.month now)) as [Lm Dm]; [simpl; lia|].
  destruct (format_0d_digits 1 (Datetime.day now)) as [Ld Dd]; [simpl; lia|].
  destruct (format_0d_digits 1 (Datetime.hour now)) as [LH DH]; [simpl; lia|].
  destruct (format_0d_digits 1 (Datetime.minute now)) as [LM DM]; [simpl; lia|].
  destruct (format_0d_digits 1 (Datetime.second now)) as [LS DS]; [simpl; lia|].
  exists (Text.format_0d 4 (Datetime.year now)
          ++ Text.format_0d 2 (Datetime.month now)
          ++ Text.format_0d 2 (Datetime.day now))%string,
         (Text.format_0d 2 (Datetime.hour now)
          ++ Text.format_0d 2 (Datetime.minute now)
          ++ Text.format_0d 2 (Datetime.second now))%string.
  unfold Datetime.strftime_Ymd_HMS.
  rewrite !string_length_app, !string_forallb_app.
  rewrite Ly, Lm, Ld, LH, LM, LS, Dy, Dm, Dd, DH, DM, DS.
  repeat split.
  rewrite !string_app_assoc. reflexivity.
Qed.

(** C6.  With a clock reading [now], the name made from a base file name
    [st.ext] (a plain file name: no slash; a non-empty stem, a non-empty
    extension without a dot) is [st-DATE-TIME.ext], where DATE is eight
    digits and TIME six (the [%Y%m%d-%H%M%S] rendering of [now]): the
    timestamp goes in before the extension.  For ["qr-codes.pdf"] the name
    is [qr-codes-DATE-TIME.pdf]. *)
Theorem get_timestamped_filename_inserts {metrics : Metrics} (w : World) :
  Datetime.valid (clock w) ->
  exists date time : string,
    Datetime.strftime_Ymd_HMS (clock w) = (date ++ "-" ++ time)%string /\
    String.length date = 8%nat /\ String.length time = 6%nat /\
    string_forallb is_digit date = true /\
    string_forallb is_digit time = true /\
    (forall st ext : string,
       st <> "" -> ext <> "" ->
       string_forallb (is_not "/") (st ++ "." ++ ext) = true ->
       string_forallb (is_not ".") ext = true ->
       get_timestamped_filename (st ++ "." ++ ext) w =
         (Ret (st ++ "-" ++ date ++ "-" ++ time ++ "." ++ ext)%string, w)) /\
    get_timestamped_filename "qr-codes.pdf" w =
      (Ret ("qr-codes-" ++ date ++ "-" ++ time ++ ".pdf")%string, w).
Proof.
  intros Hvalid.
  destruct (timestamp_shape _ Hvalid)
    as (date & time & Hts & Ld & Lt & Dd & Dt).
  exists date, time.
  assert (Hgen : forall st ext : string,
            st <> "" -> ext <> "" ->
            string_forallb (is_not "/") (st ++ "." ++ ext) = true ->
            string_forallb (is_not ".") ext = true ->
            get_timestamped_filename (st ++ "." ++ ext) w =
              (Ret (st ++ "-" ++ date ++ "-" ++ time ++ "." ++ ext)%string, w)).
  { intros st ext Hst Hext Hslash Hdots.
    unfold get_timestamped_filename, bind, datetime_now, ret.
    unfold timestamped_filename, Pathlib.stem, Pathlib.suffix.
    change ("." ++ ext)%string with (String "." ext) in *.
    rewrite (name_plain _ _ Hext Hslash).
    rewrite (split_suffix_ext _ _ Hst Hext Hdots). cbn [fst snd].
    rewrite Hts, !string_app_assoc. reflexivity. }
  repeat (split; [assumption|]).
  apply (Hgen "qr-codes" "pdf"); try discriminate; reflexivity.
Qed.

Lemma get_timestamped_filename_inserts_witness :
  Datetime.valid (clock sample_world) /\
  get_timestamped_filename "qr-codes.pdf" sample_world =
    (Ret "qr-codes-20250109-143022.pdf", sample_world).
Proof.
  assert (Hv : Datetime.valid (clock sample_world))
    by (unfold Datetime.valid; repeat split; vm_compute; discriminate).
  split; [exact Hv|].
  destruct (get_timestamped_filename_inserts sample_world Hv)
    as (date & time & Hts & _ & _ & _ & _ & _ & Hqr).
  rewrite Hqr. f_equal. f_equal.
  change ("qr-codes-20250109-143022.pdf")
    with ("qr-codes-" ++ ("20250109" ++ "-" ++ "143022") ++ ".pdf")%string.
  assert (E : (date ++ "-" ++ time)%string = ("20250109" ++ "-" ++ "143022")%string).
  { rewrite <- Hts. vm_compute. reflexivity. }
  rewrite <- E, !string_app_assoc. reflexivity.
Defined.

(** ** Argument validation *)

Section Validation.

Context {metrics : Metrics}.

Local Open Scope list_scope.

Lemma parse_arguments_too_few (args : Namespace) (w : World) :
  num_pages args < 1 ->
  exists w',
    parse_arguments args w = (Raise (SystemExit 2), w') /\
    stderr w' = stderr w ++ ["error: Number of pages must be at least 1"] /\
    stdout w' = stdout w /\
    pdf w' = pdf w /\ dirs w' = dirs w /\ cursor w' = cursor w.
Proof.
  intros H. apply Z.ltb_lt in H.
  unfold parse_arguments, bind, when. rewrite H.
  eexists. split; [reflexivity|]. cbn. repeat split.
Qed.

Lemma parse_arguments_bad_start (args : Namespace) (w : World) :
  1 <= num_pages args -> start_page args < 1 ->
  exists w',
    parse_arguments args w = (Raise (SystemExit 2), w') /\
    stderr w' =
      stderr w ++ ["error: Starting page number must be at least 1"] /\
    stdout w' =
      stdout w ++
      (if 100 <? num_pages args then [warning_line (num_pages args)] else []) /\
    pdf w' = pdf w /\ dirs w' = dirs w /\ cursor w' = cursor w.
Proof.
  intros H1 H2. apply Z.ltb_ge in H1. apply Z.ltb_lt in H2.
  unfold parse_arguments, bind, when. rewrite H1, H2.
  destruct (100 <? num_pages args);
    (eexists; split; [reflexivity|]; cbn; rewrite ?app_nil_r; repeat split).
Qed.

Lemma parse_arguments_accepts (args : Namespace) (w : World) :
  1 <= num_pages args -> 1 <= start_page args ->
  exists w',
    parse_arguments args w = (Ret args, w') /\
    stdout w' =
      stdout w ++
      (if 100 <? num_pages args then [warning_line (num_pages args)] else []) /\
    (num_pages args <= 100 -> w' = w) /\
    stderr w' = stderr w /\ pdf w' = pdf w /\ dirs w' = dirs w /\
    clock w' = clock w /\ entropy w' = entropy w /\ cursor w' = cursor w.
Proof.
  intros H1 H2. apply Z.ltb_ge in H1. apply Z.ltb_ge in H2.
  unfold parse_arguments, bind, when. rewrite H1, H2.
  destruct (100 <? num_pages args) eqn:E;
    (eexists; split; [reflexivity|]; cbn; rewrite ?app_nil_r; repeat split).
  - intros Hle. apply Z.ltb_lt in E. lia.
Qed.

(** Once the arguments are accepted, [main] goes on to make the document. *)
Lemma main_generates (args : Namespace) (w w1 : World) :
  parse_arguments args w = (Ret args, w1) ->
  exists (w2 : World) (calls : list instr),
    main args w = (Ret tt, w2) /\
    pdf w2 = pdf w1 ++ calls ++ [Save] /\
    stderr w2 = stderr w1 /\
    count is_ShowPage calls = Z.to_nat (num_pages args).
Proof.
  intros Hparse. unfold main, bind at 1. rewrite Hparse.
  unfold bind at 1. unfold mkdir_exist_ok at 1.
  set (w1' := {| pdf := pdf w1; stdout := stdout w1; stderr := stderr w1;
                 dirs := _; clock := clock w1; entropy := entropy w1;
                 cursor := cursor w1 |}).
  unfold bind at 1.
  unfold get_timestamped_filename, bind at 1, datetime_now, ret.
  unfold try_except, generate_pdf.
  destruct (generate_pdf_with_document LAYOUT (num_pages args)
              (Pathlib.joinpath OUTPUT_DIR
                 (timestamped_filename (output args) (clock w1')))
              (start_page args) (double_sided args) w1')
    as (w2 & calls & Hrun & Hpdf & _ & Herr & _ & _ & Hshow & _).
  rewrite Hrun. exists w2, calls.
  split; [reflexivity|]. split; [exact Hpdf|]. split; [exact Herr|exact Hshow].
Qed.

End Validation.

(** C7.  A page count below 1 or a start page below 1 makes
    [parse_arguments] leave through the parser's error path: one message on
    the error stream and [SystemExit] with status 2, which ends [main]
    before a directory is made, entropy is taken or a canvas call is made.
    A page count above 100 only adds the warning line to standard output:
    with a valid start page the arguments are returned as they are, nothing
    goes to the error stream, and [main] goes on to make the document with
    all its pages.  With a page count from 1 to 100 and a valid start page
    nothing is printed at all. *)
Theorem argument_validation {metrics : Metrics} (args : Namespace)
    (w : World) :
  (num_pages args < 1 \/ start_page args < 1 ->
   exists (w' : World) (message : string),
     parse_arguments args w = (Raise (SystemExit 2), w') /\
     main args w = (Raise (SystemExit 2), w') /\
     2 <> 0 /\
     stderr w' = (stderr w ++ [message])%list /\
     pdf w' = pdf w /\ dirs w' = dirs w /\ cursor w' = cursor w) /\
  (100 < num_pages args -> 1 <= start_page args ->
   exists (w1 w2 : World) (calls : list instr),
     parse_arguments args w = (Ret args, w1) /\
     stdout w1 = (stdout w ++ [warning_line (num_pages args)])%list /\
     stderr w1 = stderr w /\ pdf w1 = pdf w /\
     main args w = (Ret tt, w2) /\
     stderr w2 = stderr w /\
     pdf w2 = (pdf w ++ calls ++ [Save])%list /\
     count is_ShowPage calls = Z.to_nat (num_pages args)) /\
  (1 <= num_pages args <= 100 -> 1 <= start_page args ->
   parse_arguments args w = (Ret args, w)).
Proof.
  split; [|split].
  - intros Hbad.
    assert (Hmain : forall w', parse_arguments args w = (Raise (SystemExit 2), w') ->
              main args w = (Raise (SystemExit 2), w')).
    { intros w' H. unfold main, bind at 1. rewrite H. reflexivity. }
    destruct (Z.lt_ge_cases (num_pages args) 1) as [Hn|Hn].
    + destruct (parse_arguments_too_few args w Hn)
        as (w' & Hp & He & _ & Hpdf & Hd & Hc).
      exists w', "error: Number of pages must be at least 1".
      repeat split; auto. discriminate.
    + assert (Hs : start_page args < 1) by lia.
      destruct (parse_arguments_bad_start args w Hn Hs)
        as (w' & Hp & He & _ & Hpdf & Hd & Hc).
      exists w', "error: Starting page number must be at least 1".
      repeat split; auto. discriminate.
  - intros Hn Hs.
    destruct (parse_arguments_accepts args w ltac:(lia) Hs)
      as (w1 & Hp & Hout & _ & He & Hpdf & _).
    destruct (main_generates args w w1 Hp) as (w2 & calls & Hm & Hpdf2 & He2 & Hshow).
    exists w1, w2, calls.
    apply Z.ltb_lt in Hn. rewrite Hn in Hout.
    repeat split; try assumption; congruence.
  - intros [Hn Hn'] Hs.
    destruct (parse_arguments_accepts args w Hn Hs) as (w1 & Hp & _ & Hsame & _).
    rewrite Hp, (Hsame Hn'). reflexivity.
Qed.

Lemma argument_validation_witness :
  let args := {| num_pages := 0; output := "qr-codes.pdf"; start_page := 1;
                 double_sided := false |} in
  (num_pages args < 1 \/ start_page args < 1) /\
  exists (w' : @World sym_metrics) (message : string),
    main args sample_world = (Raise (SystemExit 2), w') /\
    stderr w' = [message] /\ pdf w' = [] /\ dirs w' = [].
Proof.
  intros args.
  assert (H : num_pages args < 1 \/ start_page args < 1) by (left; cbn; lia).
  split; [exact H|].
  destruct (proj1 (argument_validation args sample_world) H)
    as (w' & message & _ & Hmain & _ & Herr & Hpdf & Hdirs & _).
  exists w', message.
  split; [exact Hmain|]. split; [exact Herr|]. split; [exact Hpdf|exact Hdirs].
Defined.

(** * Further properties of the program *)

(** ** Code images and identifiers *)

Section ImageFacts.

Context {metrics : Metrics}.

Local Open Scope list_scope.

Lemma uuid_hex_at_shape (rng : nat -> byte) (c : nat) :
  String.length (uuid_hex_at rng c) = 32%nat /\
  string_forallb is_hex_char (uuid_hex_at rng c) = true.
Proof.
  destruct (uuid_at_ok rng c) as (u & _ & Hrange & ->).
  apply hex_of_128_bits. exact Hrange.
Qed.

Lemma codes_of_app (l1 l2 : list instr) :
  codes_of (l1 ++ l2) = codes_of l1 ++ codes_of l2.
Proof. unfold codes_of. apply flat_map_app. Qed.

Lemma map_seq_from {B : Type} (f : nat -> B) (n : nat) :
  forall a, map f (seq a n) = map (fun k => f (a + k)%nat) (seq 0 n).
Proof.
  induction n as [|n IH]; intros a; [reflexivity|].
  cbn [seq map]. rewrite Nat.add_0_r. f_equal.
  rewrite IH, <- seq_shift, map_map.
  apply map_ext. intros k. f_equal. lia.
Qed.

Lemma identifiers_from_add (rng : nat -> byte) (c m1 m2 : nat) :
  identifiers_from rng c (m1 + m2) =
    identifiers_from rng c m1 ++ identifiers_from rng (c + 16 * m1) m2.
Proof.
  unfold identifiers_from. rewrite seq_app, map_app. f_equal.
  rewrite map_seq_from. apply map_ext. intros k. f_equal. lia.
Qed.

Lemma codes_of_trace_fold {A : Type} (f : nat -> A -> list instr)
    (rng : nat -> byte) (m : nat) :
  (forall c x, codes_of (f c x) = identifiers_from rng c m) ->
  forall l c,
  codes_of (trace_fold f (16 * m) c l) =
    identifiers_from rng c (List.length l * m).
Proof.
  intros Hf l. induction l as [|x l IH]; intros c; [reflexivity|].
  cbn [trace_fold List.length]. rewrite codes_of_app, Hf, IH.
  change (S (List.length l) * m)%nat with (m + List.length l * m)%nat.
  rewrite identifiers_from_add. reflexivity.
Qed.

Lemma codes_of_page (cfg : LayoutConfig) (sp : Z) (ds : bool) rng c (i : Z) :
  codes_of (page_instrs cfg sp ds rng c i) =
    identifiers_from rng c (Z.to_nat (codes_per_page cfg)).
Proof.
  unfold page_instrs, page_rows. rewrite codes_of_app.
  change 16%nat with (16 * 1)%nat at 1.
  rewrite (codes_of_trace_fold _ rng 1).
  - rewrite range_length, Nat.mul_1_r. cbn [label_instrs codes_of flat_map].
    apply app_nil_r.
  - intros c' x. unfold row_instrs, identifiers_from.
    cbn [codes_of flat_map app qr_data create_qr_code seq map].
    replace (c' + 16 * 0)%nat with c' by lia. reflexivity.
Qed.

End ImageFacts.

(** X1.  Every code image of a run is drawn at [qr_size] by [qr_size] with
    the aspect ratio kept, from a square RGB image of four times that size
    that encodes, at error correction level M, a payload of 32 characters
    in [0-9a-f]. *)
Theorem generate_pdf_images {metrics : Metrics} (cfg : LayoutConfig)
    (num_pages : Z) (output_filename : string) (start_page : Z)
    (double_sided : bool) (w : World) :
  exists (w' : World) (calls : list instr),
    generate_pdf_with cfg num_pages output_filename start_page double_sided w
      = (Ret tt, w') /\
    pdf w' = (pdf w ++ calls)%list /\
    count is_DrawInlineImage calls =
      (Z.to_nat num_pages * Z.to_nat (codes_per_page cfg))%nat /\
    Forall (image_call_ok cfg) calls.
Proof.
  destruct (generate_pdf_with_runs cfg num_pages output_filename start_page
              double_sided w _ _ eq_refl eq_refl) as (w' & Hrun & Hpdf & _).
  eexists w', _. split; [exact Hrun|]. split; [exact Hpdf|].
  unfold document_instrs. split.
  - change (count is_DrawInlineImage (NewCanvas output_filename letter :: ?l))
      with (count is_DrawInlineImage l).
    rewrite count_app.
    rewrite (count_trace_fold is_DrawInlineImage _ _
               (Z.to_nat (codes_per_page cfg))).
    + rewrite range_length. cbn. lia.
    + intros c x. unfold page_instrs. rewrite count_app.
      rewrite (page_rows_count is_DrawInlineImage 1) by reflexivity.
      cbn. lia.
  - constructor; [exact I|].
    apply Forall_app. split; [|repeat constructor].
    apply Forall_trace_fold. intros c x. unfold page_instrs, page_rows.
    apply Forall_app. split; [|repeat constructor].
    apply Forall_trace_fold. intros c' row. unfold row_instrs.
    constructor; [exact I|]. constructor; [|constructor].
    destruct (uuid_hex_at_shape (entropy w) c') as [Hlen Hhex].
    cbn [image_call_ok size mode qr_error_correction qr_data create_qr_code].
    repeat split; try assumption. f_equal; lia.
Qed.

(** X2.  The payloads of the images of a run, in drawing order, are the
    identifiers made from consecutive, disjoint sixteen-byte windows of the
    entropy source, starting at the cursor: one fresh identifier per row and
    none used twice.  The run takes exactly sixteen bytes per row and leaves
    the source itself, the clock, the directories and the error stream as
    they were. *)
Theorem generate_pdf_identifiers {metrics : Metrics} (cfg : LayoutConfig)
    (num_pages : Z) (output_filename : string) (start_page : Z)
    (double_sided : bool) (w : World) :
  let rows := (Z.to_nat num_pages * Z.to_nat (codes_per_page cfg))%nat in
  exists (w' : World) (calls : list instr),
    generate_pdf_with cfg num_pages output_filename start_page double_sided w
      = (Ret tt, w') /\
    pdf w' = (pdf w ++ calls)%list /\
    codes_of calls = identifiers_from (entropy w) (cursor w) rows /\
    List.length (codes_of calls) = rows /\
    cursor w' = (cursor w + 16 * rows)%nat /\
    entropy w' = entropy w /\ clock w' = clock w /\
    dirs w' = dirs w /\ stderr w' = stderr w.
Proof.
  intros rows.
  destruct (generate_pdf_with_runs cfg num_pages output_filename start_page
              double_sided w _ _ eq_refl eq_refl)
    as (w' & Hrun & Hpdf & _ & Herr & Hdirs & Hclock & Hrng & Hcur).
  eexists w', _. split; [exact Hrun|]. split; [exact Hpdf|].
  assert (Hcodes : codes_of (document_instrs cfg num_pages output_filename
                               start_page double_sided (entropy w) (cursor w))
                   = identifiers_from (entropy w) (cursor w) rows).
  { unfold document_instrs.
    change (codes_of (NewCanvas output_filename letter :: ?l))
      with (codes_of l).
    rewrite codes_of_app. unfold page_entropy. rewrite range_length.
    rewrite (codes_of_trace_fold _ (entropy w))
      by (intros; apply codes_of_page).
    rewrite range_length. cbn [codes_of flat_map]. apply app_nil_r. }
  split; [exact Hcodes|]. split.
  { rewrite Hcodes. unfold identifiers_from.
    rewrite length_map, length_seq. reflexivity. }
  split.
  { rewrite Hcur. unfold page_entropy. rewrite !range_length.
    unfold rows. lia. }
  auto.
Qed.

(** ** What a run prints *)

Lemma flat_map_page_lines (n : Z) (l : list Z) :
  flat_map (page_lines n) l =
    if 1 <? n
    then map (fun i => ("  Page " ++ Text.str (i + 1) ++ "/" ++ Text.str n
                        ++ "...")%string) l
    else [].
Proof.
  unfold page_lines. destruct (1 <? n).
  - induction l as [|x l IH]; [reflexivity|]. cbn [flat_map map app].
    rewrite IH. reflexivity.
  - induction l as [|x l IH]; [reflexivity|exact IH].
Qed.

(** X3.  A run prints, in this order: the two opening lines, the
    double-sided notice only in double-sided mode, one progress line
    ["  Page i/n..."] per page only when there is more than one page, and
    the two closing lines, the first of which names the output file. *)
Theorem generate_pdf_prints {metrics : Metrics} (cfg : LayoutConfig)
    (num_pages : Z) (output_filename : string) (start_page : Z)
    (double_sided : bool) (w : World) :
  exists (w' : World),
    generate_pdf_with cfg num_pages output_filename start_page double_sided w
      = (Ret tt, w') /\
    stdout w' =
      (stdout w
       ++ [("Generating " ++ Text.str num_pages ++ " page(s) with "
            ++ Text.str (num_pages * codes_per_page cfg)
            ++ " QR codes...")%string;
           ("Page numbering starts at: " ++ Text.str start_page)%string]
       ++ (if double_sided
           then ["Double-sided mode: margins will flip on even pages"]
           else [])
       ++ (if 1 <? num_pages
           then map (fun i => ("  Page " ++ Text.str (i + 1) ++ "/"
                               ++ Text.str num_pages ++ "...")%string)
                  (range num_pages)
           else [])
       ++ [("Successfully generated " ++ output_filename)%string;
           ("Total: " ++ Text.str num_pages ++ " page(s), "
            ++ Text.str (num_pages * codes_per_page cfg)
            ++ " QR codes")%string])%list.
Proof.
  destruct (generate_pdf_with_runs cfg num_pages output_filename start_page
              double_sided w _ _ eq_refl eq_refl) as (w' & Hrun & _ & Hout & _).
  exists w'. split; [exact Hrun|].
  rewrite Hout. unfold document_lines. rewrite flat_map_page_lines.
  reflexivity.
Qed.

(** X4.  For a page count and a row count that are not negative, the
    number of codes announced in the opening line is the number of code
    images the run draws. *)
Theorem generate_pdf_announced_total {metrics : Metrics} (cfg : LayoutConfig)
    (num_pages : Z) (output_filename : string) (start_page : Z)
    (double_sided : bool) (w : World) :
  0 <= num_pages -> 0 <= codes_per_page cfg ->
  exists (w' : World) (calls : list instr) (lines : list string),
    generate_pdf_with cfg num_pages output_filename start_page double_sided w
      = (Ret tt, w') /\
    pdf w' = (pdf w ++ calls)%list /\
    stdout w' =
      (stdout w
       ++ ("Generating " ++ Text.str num_pages ++ " page(s) with "
           ++ Text.str (Z.of_nat (count is_DrawInlineImage calls))
           ++ " QR codes...")%string :: lines)%list.
Proof.
  intros Hn Hc.
  destruct (generate_pdf_with_runs cfg num_pages output_filename start_page
              double_sided w _ _ eq_refl eq_refl) as (w' & Hrun & Hpdf & Hout & _).
  assert (Hcount : Z.of_nat
                     (count is_DrawInlineImage
                        (document_instrs cfg num_pages output_filename
                           start_page double_sided (entropy w) (cursor w)))
                   = num_pages * codes_per_page cfg).
  { unfold document_instrs.
    change (count is_DrawInlineImage (NewCanvas output_filename letter :: ?l))
      with (count is_DrawInlineImage l).
    rewrite count_app.
    rewrite (count_trace_fold is_DrawInlineImage _ _
               (Z.to_nat (codes_per_page cfg))).
    - rewrite range_length. cbn. lia.
    - intros c x. unfold page_instrs. rewrite count_app.
      rewrite (page_rows_count is_DrawInlineImage 1) by reflexivity.
      cbn. lia. }
  eexists w', _, _. split; [exact Hrun|]. split; [exact Hpdf|].
  rewrite Hout, Hcount. unfold document_lines. cbn [app]. reflexivity.
Qed.

Lemma generate_pdf_announced_total_witness :
  0 <= 2 /\ 0 <= codes_per_page LAYOUT /\
  exists (w' : @World sym_metrics) (calls : list instr) (lines : list string),
    generate_pdf 2 "out.pdf" 1 false sample_world = (Ret tt, w') /\
    pdf w' = calls /\
    stdout w' =
      ("Generating 2 page(s) with "
       ++ Text.str (Z.of_nat (count is_DrawInlineImage calls))
       ++ " QR codes...")%string :: lines.
Proof.
  assert (H1 : 0 <= 2) by lia.
  assert (H2 : 0 <= codes_per_page LAYOUT) by (cbn; lia).
  split; [exact H1|]. split; [exact H2|].
  destruct (generate_pdf_announced_total LAYOUT 2 "out.pdf" 1 false
              sample_world H1 H2) as (w' & calls & lines & Hrun & Hpdf & Hout).
  exists w', calls, lines.
  split; [exact Hrun|]. split; [exact Hpdf|exact Hout].
Defined.

(** X5.  With a page count of zero or less the page loop does not run: the
    canvas is created and saved with nothing in between, and no entropy is
    taken. *)
Theorem generate_pdf_no_pages {metrics : Metrics} (cfg : LayoutConfig)
    (num_pages : Z) (output_filename : string) (start_page : Z)
    (double_sided : bool) (w : World) :
  num_pages <= 0 ->
  exists (w' : World),
    generate_pdf_with cfg num_pages output_filename start_page double_sided w
      = (Ret tt, w') /\
    pdf w' = (pdf w ++ [NewCanvas output_filename letter; Save])%list /\
    cursor w' = cursor w.
Proof.
  intros Hn.
  destruct (generate_pdf_with_runs cfg num_pages output_filename start_page
              double_sided w _ _ eq_refl eq_refl)
    as (w' & Hrun & Hpdf & _ & _ & _ & _ & _ & Hcur).
  exists w'. split; [exact Hrun|].
  unfold document_instrs, range in *.
  replace (Z.to_nat num_pages) with 0%nat in * by lia.
  split; [exact Hpdf|]. rewrite Hcur. cbn. lia.
Qed.

Lemma generate_pdf_no_pages_witness :
  0 <= 0 /\
  exists (w' : @World sym_metrics),
    generate_pdf 0 "out.pdf" 1 false sample_world = (Ret tt, w') /\
    pdf w' = [NewCanvas "out.pdf" letter; Save] /\
    cursor w' = O.
Proof.
  assert (H : 0 <= 0) by lia.
  split; [exact H|].
  destruct (generate_pdf_no_pages LAYOUT 0 "out.pdf" 1 false sample_world H)
    as (w' & Hrun & Hpdf & Hcur).
  exists w'. split; [exact Hrun|]. split; [exact Hpdf|exact Hcur].
Defined.

(** ** More page geometry *)

(** X6.  When the boxes are not taller than the row spacing (and not of
    negative height), the boxes of two different rows of a page do not
    overlap: the top edge of the lower one is not above the bottom edge of
    the upper one.  When the height equals the spacing, consecutive boxes
    share an edge. *)
Theorem rows_do_not_overlap (cfg : LayoutConfig) (ml mr row row' : Z) :
  0 <= box_height cfg <= row_spacing cfg ->
  row < row' ->
  let upper := row_box cfg ml mr row in
  let lower := row_box cfg ml mr row' in
  rect_y lower + rect_height lower <= rect_y upper /\
  (box_height cfg = row_spacing cfg -> row' = row + 1 ->
   rect_y lower + rect_height lower = rect_y upper).
Proof.
  intros [Hh Hsp] Hlt. cbn. split; [nia|]. intros Heq ->. lia.
Qed.

Lemma rows_do_not_overlap_witness :
  0 <= box_height LAYOUT <= row_spacing LAYOUT /\ 3 < 4 /\
  rect_y (row_box LAYOUT 72 36 4) + rect_height (row_box LAYOUT 72 36 4)
    <= rect_y (row_box LAYOUT 72 36 3).
Proof.
  assert (H1 : 0 <= box_height LAYOUT <= row_spacing LAYOUT) by (cbn; lia).
  assert (H2 : 3 < 4) by lia.
  split; [exact H1|]. split; [exact H2|].
  exact (proj1 (rows_do_not_overlap LAYOUT 72 36 3 4 H1 H2)).
Defined.

(** X7.  With the default layout every box of every page, in both modes,
    lies between the margins: at least 36 points from the left and right
    page edges, with its top edge at most [page_height - margin_top] and its
    bottom edge at least [margin_bottom]; the first row touches the top
    margin and the last row the bottom margin.  The page label, at
    [margin_bottom - 20], is on the page and below every box. *)
Theorem default_boxes_within_margins (ds : bool) (p row : Z) :
  0 <= row < codes_per_page LAYOUT ->
  let m := page_margins LAYOUT ds p in
  let box := row_box LAYOUT (fst m) (snd m) row in
  36 <= rect_x box /\
  rect_x box + rect_width box <= page_width LAYOUT - 36 /\
  margin_bottom LAYOUT <= rect_y box /\
  rect_y box + rect_height box <= page_height LAYOUT - margin_top LAYOUT /\
  (row = 0 ->
   rect_y box + rect_height box = page_height LAYOUT - margin_top LAYOUT) /\
  (row = codes_per_page LAYOUT - 1 -> rect_y box = margin_bottom LAYOUT) /\
  0 <= margin_bottom LAYOUT - 20 < rect_y box.
Proof.
  intros Hrow m box.
  pose proof (page_margins_sum LAYOUT ds p) as Hsum. fold m in Hsum.
  assert (Hm : 36 <= fst m /\ 36 <= snd m).
  { unfold m, page_margins. destruct (ds && (p mod 2 =? 0)); cbn; lia. }
  unfold box, row_box, LAYOUT in *.
  cbn [rect_x rect_y rect_width rect_height page_width page_height margin_top
       margin_bottom margin_left margin_right box_height row_spacing
       codes_per_page] in *.
  repeat split; lia.
Qed.

Lemma default_boxes_within_margins_witness :
  0 <= 9 < codes_per_page LAYOUT /\
  rect_y (row_box LAYOUT 36 72 9) = margin_bottom LAYOUT.
Proof.
  assert (H : 0 <= 9 < codes_per_page LAYOUT) by (cbn; lia).
  split; [exact H|].
  destruct (default_boxes_within_margins true 2 9 H)
    as (_ & _ & _ & _ & _ & Hlast & _).
  exact (Hlast eq_refl).
Defined.

(** X8.  In double-sided mode the margins of consecutive pages are each
    other's swap, so the box of a page is the mirror image, about the
    vertical centre line of the sheet, of the box of the page before it;
    without double-sided mode all pages have the same margins. *)
Theorem double_sided_mirrors (cfg : LayoutConfig) (p row : Z) :
  let m := page_margins cfg true p in
  let m' := page_margins cfg true (p + 1) in
  m' = (snd m, fst m) /\
  rect_x (row_box cfg (fst m') (snd m') row) =
    page_width cfg
    - (rect_x (row_box cfg (fst m) (snd m) row)
       + rect_width (row_box cfg (fst m) (snd m) row)) /\
  rect_y (row_box cfg (fst m') (snd m') row) =
    rect_y (row_box cfg (fst m) (snd m) row) /\
  page_margins cfg false (p + 1) = page_margins cfg false p.
Proof.
  intros m m'.
  assert (Hm : m' = (snd m, fst m)).
  { unfold m, m', page_margins. cbn [andb]. rewrite !even_mod_2.
    rewrite Z.add_1_r, Z.even_succ, <- Z.negb_even.
    destruct (Z.even p); reflexivity. }
  split; [exact Hm|]. rewrite Hm. cbn. repeat split. lia.
Qed.

(** ** More on validation and the driver *)

(** X9.  [parse_arguments] reports one error at most.  A page count below
    1 is reported whatever the start page is, and then nothing is printed
    to standard output; a page count above 100 with a start page below 1
    first prints the warning and then reports the start page. *)
Theorem parse_arguments_first_error {metrics : Metrics} (args : Namespace)
    (w : World) :
  (num_pages args < 1 ->
   exists w' : World,
     parse_arguments args w = (Raise (SystemExit 2), w') /\
     stderr w' =
       (stderr w ++ ["error: Number of pages must be at least 1"])%list /\
     stdout w' = stdout w) /\
  (100 < num_pages args -> start_page args < 1 ->
   exists w' : World,
     parse_arguments args w = (Raise (SystemExit 2), w') /\
     stdout w' = (stdout w ++ [warning_line (num_pages args)])%list /\
     stderr w' =
       (stderr w ++ ["error: Starting page number must be at least 1"])%list).
Proof.
  split.
  - intros Hn.
    destruct (parse_arguments_too_few args w Hn) as (w' & Hp & He & Ho & _).
    exists w'. auto.
  - intros Hn Hs.
    destruct (parse_arguments_bad_start args w ltac:(lia) Hs)
      as (w' & Hp & He & Ho & _).
    apply Z.ltb_lt in Hn. rewrite Hn in Ho.
    exists w'. auto.
Qed.

Lemma parse_arguments_first_error_witness :
  let args := {| num_pages := 0; output := "qr-codes.pdf"; start_page := 0;
                 double_sided := false |} in
  num_pages args < 1 /\
  exists w' : @World sym_metrics,
    parse_arguments args sample_world = (Raise (SystemExit 2), w') /\
    stderr w' = ["error: Number of pages must be at least 1"] /\
    stdout w' = [].
Proof.
  intros args.
  assert (H : num_pages args < 1) by (cbn; lia).
  split; [exact H|].
  exact (proj1 (parse_arguments_first_error args sample_world) H).
Defined.




(** ** More on the timestamped file name *)

Lemma string_app_nil_r (s : string) : (s ++ "")%string = s.
Proof. induction s as [|c s IH]; simpl; congruence. Qed.

Lemma split_slash_not_nil (s : string) : Pathlib.split_slash s <> [].
Proof.
  destruct s as [|c s]; simpl; [discriminate|].
  destruct (Ascii.eqb c "/"); [discriminate|].
  destruct (Pathlib.split_slash s); discriminate.
Qed.

Lemma split_slash_parts (s : string) :
  Forall (fun part => string_forallb (is_not "/") part = true)
    (Pathlib.split_slash s).
Proof.
  induction s as [|c s IH]; simpl; [repeat constructor|].
  destruct (Ascii.eqb c "/") eqn:E.
  - constructor; [reflexivity|exact IH].
  - destruct (Pathlib.split_slash s) as [|part rest].
    + constructor; [|constructor]. simpl. unfold is_not. rewrite E. reflexivity.
    + inversion IH as [|? ? Hp Hrest]; subst. constructor; [|exact Hrest].
      simpl. unfold is_not at 1. rewrite E, Hp. reflexivity.
Qed.

Lemma split_slash_app (d b : string) :
  Pathlib.split_slash (d ++ String "/" b) =
    (Pathlib.split_slash d ++ Pathlib.split_slash b)%list.
Proof.
  induction d as [|c d IH]; [reflexivity|].
  cbn [append Pathlib.split_slash]. rewrite IH.
  destruct (Ascii.eqb c "/"); [reflexivity|].
  pose proof (split_slash_not_nil d) as Hne.
  destruct (Pathlib.split_slash d) as [|part rest]; [contradiction|reflexivity].
Qed.

Lemma last_Forall {A : Type} (P : A -> Prop) (l : list A) (d : A) :
  Forall P l -> P d -> P (last l d).
Proof.
  intros Hl Hd. induction Hl as [|x l Hx Hl IH]; [exact Hd|].
  destruct l; [exact Hx|exact IH].
Qed.

Lemma name_no_slash (s : string) :
  string_forallb (is_not "/") (Pathlib.name s) = true.
Proof.
  unfold Pathlib.name, Pathlib.parts.
  apply (last_Forall (fun part => string_forallb (is_not "/") part = true));
    [|reflexivity].
  apply Forall_forall. intros part Hin. apply filter_In in Hin as [Hin _].
  pose proof (split_slash_parts s) as H.
  rewrite Forall_forall in H. apply H. exact Hin.
Qed.

Lemma substring_split (s : string) :
  forall i, (i <= String.length s)%nat ->
  (substring 0 i s ++ substring i (String.length s - i) s)%string = s.
Proof.
  induction s as [|c s IH]; intros i Hi.
  - destruct i; reflexivity.
  - destruct i as [|i].
    + cbn [substring append String.length Nat.sub].
      rewrite substring_all. reflexivity.
    + cbn [substring append String.length Nat.sub].
      simpl in Hi. rewrite IH by lia. reflexivity.
Qed.

(** Stem and suffix together are the name. *)
Lemma split_suffix_app (nm : string) :
  (fst (Pathlib.split_suffix nm) ++ snd (Pathlib.split_suffix nm))%string = nm.
Proof.
  unfold Pathlib.split_suffix.
  destruct (Pathlib.rfind_dot nm) as [i|]; [|apply string_app_nil_r].
  destruct ((0 <? i)%nat && (i <? String.length nm - 1)%nat) eqn:E;
    [|apply string_app_nil_r].
  apply andb_true_iff in E as [_ E]. apply Nat.ltb_lt in E.
  cbn [fst snd]. apply substring_split. lia.
Qed.

Lemma rfind_dot_spec (s : string) :
  forall i, Pathlib.rfind_dot s = Some i ->
  exists a b : string,
    s = (a ++ String "." b)%string /\ String.length a = i /\
    string_forallb (is_not ".") b = true.
Proof.
  induction s as [|c s IH]; intros i H; [discriminate|].
  simpl in H. destruct (Pathlib.rfind_dot s) as [j|] eqn:E.
  - injection H as <-. destruct (IH j eq_refl) as (a & b & -> & Hlen & Hb).
    exists (String c a), b. simpl. auto.
  - destruct (Ascii.eqb_spec c ".") as [->|Hc]; [|discriminate].
    injection H as <-. exists EmptyString, s. repeat split.
    clear IH. induction s as [|c' s IHs]; [reflexivity|].
    simpl in E. destruct (Pathlib.rfind_dot s); [discriminate|].
    destruct (Ascii.eqb c' ".") eqn:Ec; [discriminate|].
    simpl. unfold is_not at 1. rewrite Ec. apply IHs. reflexivity.
Qed.

Lemma digit_char_not_slash (d : N) : is_not "/" (Text.digit_char d) = true.
Proof.
  destruct d as [|p]; [reflexivity|].
  do 4 (try destruct p as [p|p|]; try reflexivity).
Qed.

Lemma format_0d_no_slash (width : nat) (z : Z) :
  string_forallb (is_not "/") (Text.format_0d width z) = true.
Proof.
  unfold Text.format_0d, Text.decimal.
  destruct (z <? 0); cbn [string_forallb];
    try (change (is_not "/" "-") with true; cbn [andb]);
    (apply zero_pad_forallb; [reflexivity|];
     apply digits_forallb; [|reflexivity];
     intros d _; apply digit_char_not_slash).
Qed.

Lemma strftime_no_slash (now : Datetime.datetime) :
  string_forallb (is_not "/") (Datetime.strftime_Ymd_HMS now) = true.
Proof.
  unfold Datetime.strftime_Ymd_HMS.
  rewrite !string_forallb_app, !format_0d_no_slash. reflexivity.
Qed.

Lemma kept_with_hyphen (st r : string) :
  Pathlib.kept (st ++ String "-" r) = true.
Proof.
  unfold Pathlib.kept. destruct st as [|c st]; [reflexivity|].
  cbn [append String.eqb]. destruct (Ascii.eqb c "."); [|reflexivity].
  destruct st; reflexivity.
Qed.

(** X11.  Whatever the base name and the clock reading, the timestamped
    name contains no slash, and so the path [main] writes to has exactly two
    components: the output directory and that name.  No [--output] value can
    move the file out of the output directory. *)
Theorem timestamped_filename_one_component (base_filename : string)
    (now : Datetime.datetime) :
  string_forallb (is_not "/") (timestamped_filename base_filename now) = true /\
  Pathlib.parts
    (Pathlib.joinpath OUTPUT_DIR (timestamped_filename base_filename now)) =
    [OUTPUT_DIR; timestamped_filename base_filename now].
Proof.
  assert (Hstem : string_forallb (is_not "/") (Pathlib.stem base_filename) = true
                  /\ string_forallb (is_not "/") (Pathlib.suffix base_filename)
                     = true).
  { pose proof (name_no_slash base_filename) as Hn.
    rewrite <- (split_suffix_app (Pathlib.name base_filename)) in Hn.
    rewrite string_forallb_app in Hn. apply andb_true_iff in Hn. exact Hn. }
  destruct Hstem as [Hst Hsf].
  assert (Hno : string_forallb (is_not "/")
                  (timestamped_filename base_filename now) = true).
  { unfold timestamped_filename.
    rewrite !string_forallb_app, Hst, Hsf, strftime_no_slash. reflexivity. }
  split; [exact Hno|].
  unfold Pathlib.parts, Pathlib.joinpath.
  change ("/" ++ timestamped_filename base_filename now)%string
    with (String "/" (timestamped_filename base_filename now)).
  rewrite split_slash_app, (split_slash_no_slash _ Hno).
  cbn [OUTPUT_DIR Pathlib.split_slash Ascii.eqb Bool.eqb app filter].
  change (Pathlib.kept "output") with true. cbv iota.
  unfold timestamped_filename at 1.
  change ("-" ++ ?r)%string with (String "-" r).
  rewrite kept_with_hyphen. reflexivity.
Qed.

(** X12.  Directories in front of a plain file name are dropped: the
    timestamped name of [dir/base] is the timestamped name of [base]. *)
Theorem timestamped_filename_drops_directory (dir base : string)
    (now : Datetime.datetime) :
  base <> "" -> base <> "." ->
  string_forallb (is_not "/") base = true ->
  timestamped_filename (dir ++ "/" ++ base) now =
    timestamped_filename base now.
Proof.
  intros Hne Hdot Hno.
  assert (Hkept : Pathlib.kept base = true).
  { unfold Pathlib.kept. apply negb_true_iff. apply orb_false_iff. split.
    - apply String.eqb_neq. exact Hne.
    - apply String.eqb_neq. exact Hdot. }
  assert (Hname : forall d, Pathlib.name (d ++ "/" ++ base) = base).
  { intros d. unfold Pathlib.name, Pathlib.parts.
    change ("/" ++ base)%string with (String "/" base).
    rewrite split_slash_app, (split_slash_no_slash _ Hno), filter_app.
    cbn [filter]. rewrite Hkept. apply last_last. }
  assert (Hplain : Pathlib.name base = base).
  { unfold Pathlib.name, Pathlib.parts.
    rewrite (split_slash_no_slash _ Hno). cbn [filter]. rewrite Hkept.
    reflexivity. }
  unfold timestamped_filename, Pathlib.stem, Pathlib.suffix.
  rewrite Hname, Hplain. reflexivity.
Qed.

Lemma timestamped_filename_drops_directory_witness :
  "x.pdf" <> "" /\ "x.pdf" <> "." /\
  string_forallb (is_not "/") "x.pdf" = true /\
  timestamped_filename "sub/dir/x.pdf" sample_clock =
    "x-20250109-143022.pdf".
Proof.
  assert (H1 : "x.pdf" <> "") by discriminate.
  assert (H2 : "x.pdf" <> ".") by discriminate.
  assert (H3 : string_forallb (is_not "/") "x.pdf" = true) by reflexivity.
  split; [exact H1|]. split; [exact H2|]. split; [exact H3|].
  transitivity (timestamped_filename "x.pdf" sample_clock);
    [|reflexivity].
  exact (timestamped_filename_drops_directory "sub/dir" "x.pdf" sample_clock
           H1 H2 H3).
Defined.

(** X13.  Where the timestamp goes, for every base name.  Let [nm] be the
    last component of the base.  If [nm] is [st.e] with [st] and [e] not
    empty and no dot in [e], the result is [st-TIMESTAMP.e]; otherwise (no
    dot, only a leading dot, or a trailing dot) the timestamp goes at the
    very end, [nm-TIMESTAMP].  Removing the hyphen and the timestamp gives
    [nm] back in both cases. *)
Theorem timestamped_filename_cases (base_filename : string)
    (now : Datetime.datetime) :
  let nm := Pathlib.name base_filename in
  let ts := Datetime.strftime_Ymd_HMS now in
  (exists st e : string,
     st <> "" /\ e <> "" /\ string_forallb (is_not ".") e = true /\
     nm = (st ++ "." ++ e)%string /\
     timestamped_filename base_filename now =
       (st ++ "-" ++ ts ++ "." ++ e)%string) \/
  ((forall st e : string,
      st <> "" -> e <> "" -> string_forallb (is_not ".") e = true ->
      nm <> (st ++ "." ++ e)%string) /\
   timestamped_filename base_filename now = (nm ++ "-" ++ ts)%string).
Proof.
  intros nm ts.
  assert (Hno : Pathlib.split_suffix nm = (nm, "") ->
            (forall st e : string,
               st <> "" -> e <> "" -> string_forallb (is_not ".") e = true ->
               nm <> (st ++ "." ++ e)%string) /\
            timestamped_filename base_filename now = (nm ++ "-" ++ ts)%string).
  { intros Hsplit. split.
    - intros st e Hst He Hdots Heq.
      change ("." ++ e)%string with (String "." e) in Heq.
      rewrite Heq, (split_suffix_ext st e Hst He Hdots) in Hsplit.
      injection Hsplit as H1 _.
      apply (f_equal String.length) in H1.
      rewrite string_length_app in H1. simpl in H1. lia.
    - unfold timestamped_filename, Pathlib.stem, Pathlib.suffix.
      fold nm. rewrite Hsplit. cbn [fst snd].
      rewrite string_app_nil_r. reflexivity. }
  destruct (Pathlib.rfind_dot nm) as [i|] eqn:Ei.
  - destruct ((0 <? i)%nat && (i <? String.length nm - 1)%nat) eqn:Ec.
    + left. destruct (rfind_dot_spec nm i Ei) as (st & e & Hnm & Hlen & Hdots).
      apply andb_true_iff in Ec as [E1 E2].
      apply Nat.ltb_lt in E1. apply Nat.ltb_lt in E2.
      assert (Hst : st <> "") by (intros ->; simpl in Hlen; lia).
      assert (He : e <> "").
      { intros ->. rewrite Hnm, string_length_app in E2. simpl in E2. lia. }
      exists st, e. repeat split; try assumption.
      unfold timestamped_filename, Pathlib.stem, Pathlib.suffix.
      fold nm. rewrite Hnm, (split_suffix_ext st e Hst He Hdots).
      cbn [fst snd]. reflexivity.
    + right. apply Hno. unfold Pathlib.split_suffix. rewrite Ei, Ec.
      reflexivity.
  - right. apply Hno. unfold Pathlib.split_suffix. rewrite Ei. reflexivity.
Qed.

(** ** More on pages *)

(** X14.  On every page the label is right-aligned with the boxes: the
    position from which the width of the text is subtracted is the right
    edge of every box of that page, in both modes. *)
Theorem draw_page_label_aligned {metrics : Metrics} (cfg : LayoutConfig)
    (num_pages start_page : Z) (double_sided : bool) (page_num : Z)
    (w : World) :
  exists (w' : World) (rows : list instr) (edge : Z) (label : string),
    draw_page cfg num_pages start_page double_sided page_num w = (Ret tt, w') /\
    pdf w' =
      (pdf w ++ rows ++
       [SetFont "Helvetica" 10;
        DrawString
          (num_sub (num_of_int edge) (stringWidth label "Helvetica" 10))
          (margin_bottom cfg - 20) label;
        ShowPage])%list /\
    count is_Rect rows = Z.to_nat (codes_per_page cfg) /\
    Forall (rect_ends_at edge) rows.
Proof.
  destruct (draw_page_runs cfg num_pages start_page double_sided page_num w
              _ _ eq_refl eq_refl) as (w' & Hrun & Hpdf & _).
  set (m := page_margins cfg double_sided (start_page + page_num)).
  exists w', (page_rows cfg start_page double_sided (entropy w) (cursor w)
                page_num), (page_width cfg - snd m),
         (page_label start_page page_num).
  split; [exact Hrun|]. split; [exact Hpdf|]. split.
  - rewrite (page_rows_count is_Rect 1) by reflexivity. lia.
  - unfold page_rows. apply Forall_trace_fold. intros c row.
    unfold row_instrs. constructor; [|repeat constructor].
    cbn. fold m. lia.
Qed.

(** X15.  The code image lies inside its box for every layout table with
    a padding that is not negative and an image that, with the padding on
    both sides, is neither taller than the box nor wider than the space
    between the margins. *)
Theorem image_inside_box_general (cfg : LayoutConfig) (ds : bool)
    (p row : Z) :
  0 <= qr_padding cfg ->
  qr_size cfg + 2 * qr_padding cfg <= box_height cfg ->
  qr_size cfg + 2 * qr_padding cfg
    <= page_width cfg - margin_left cfg - margin_right cfg ->
  let m := page_margins cfg ds p in
  inside (row_geometry cfg (fst m) (snd m) row).
Proof.
  intros Hpad Hh Hw m.
  pose proof (page_margins_sum cfg ds p) as Hsum. fold m in Hsum.
  unfold row_geometry, inside, qr_position. rewrite even_mod_2.
  unfold row_box.
  cbn [rect_x rect_y rect_width rect_height fst snd].
  destruct (Z.even row); lia.
Qed.

Lemma image_inside_box_general_witness :
  0 <= qr_padding LAYOUT /\
  qr_size LAYOUT + 2 * qr_padding LAYOUT <= box_height LAYOUT /\
  qr_size LAYOUT + 2 * qr_padding LAYOUT
    <= page_width LAYOUT - margin_left LAYOUT - margin_right LAYOUT /\
  inside (row_geometry LAYOUT 36 72 1).
Proof.
  assert (H1 : 0 <= qr_padding LAYOUT) by (cbn; lia).
  assert (H2 : qr_size LAYOUT + 2 * qr_padding LAYOUT <= box_height LAYOUT)
    by (cbn; lia).
  assert (H3 : qr_size LAYOUT + 2 * qr_padding LAYOUT
               <= page_width LAYOUT - margin_left LAYOUT - margin_right LAYOUT)
    by (cbn; lia).
  split; [exact H1|]. split; [exact H2|]. split; [exact H3|].
  exact (image_inside_box_general LAYOUT true 2 1 H1 H2 H3).
Defined.

Lemma digit_char_nonzero (d : N) :
  (0 < d < 16)%N -> Text.digit_char d <> "0"%char.
Proof.
  intros Hd. destruct d as [|p]; [lia|].
  do 4 (try destruct p as [p|p|]; try discriminate; try lia).
Qed.

Lemma digits_head_nonzero (b : N) :
  (b + 2 <= 16)%N ->
  forall n acc, (0 < n)%N ->
  exists (c : ascii) (r : string),
    Text.digits b n acc = String c r /\ c <> "0"%char.
Proof.
  intros Hb n. induction n as [n IH] using (well_founded_induction N.lt_wf_0).
  intros acc Hn. rewrite digits_unfold.
  destruct (n <? b + 2)%N eqn:E.
  - apply N.ltb_lt in E. eexists _, _. split; [reflexivity|].
    apply digit_char_nonzero. lia.
  - apply N.ltb_ge in E. apply IH.
    + apply N.div_lt; lia.
    + apply N.div_str_pos. lia.
Qed.

(** X16.  The label of a page whose number is not negative is ["Page "]
    followed by the decimal numeral of the page number: only digits, which
    denote that number, and no leading zero for a number above zero. *)
Theorem page_label_numeral (start_page page_num : Z) :
  0 <= start_page + page_num ->
  exists d : string,
    page_label start_page page_num = ("Page " ++ d)%string /\
    string_forallb is_digit d = true /\
    Z.of_N (string_value 10 d) = start_page + page_num /\
    (0 < start_page + page_num ->
     exists (c : ascii) (r : string), d = String c r /\ c <> "0"%char).
Proof.
  intros Hp. exists (Text.str (start_page + page_num)).
  split; [reflexivity|]. split; [|split; [apply str_value; exact Hp|]].
  - unfold Text.str.
    destruct (start_page + page_num <? 0) eqn:E; [apply Z.ltb_lt in E; lia|].
    apply digits_forallb; [|reflexivity].
    intros d Hd. apply digit_char_digit. lia.
  - intros Hpos. unfold Text.str.
    destruct (start_page + page_num <? 0) eqn:E; [apply Z.ltb_lt in E; lia|].
    apply (digits_head_nonzero 8); lia.
Qed.

Lemma page_label_numeral_witness :
  0 <= 41 + 1 /\ page_label 41 1 = "Page 42".
Proof.
  assert (H : 0 <= 41 + 1) by lia.
  split; [exact H|].
  destruct (page_label_numeral 41 1 H) as (d & Hlabel & _).
  assert (E : ("Page " ++ d)%string = "Page 42").
  { rewrite <- Hlabel. vm_compute. reflexivity. }
  rewrite Hlabel. exact E.
Defined.
